(** * SPY ETF vs NAV tracker: a shallow embedding of [spy_nav_tracker.py]

    The script is a Streamlit page that is re-executed from top to bottom on
    every rerun.  Its only persistent state is [st.session_state] (the sample
    buffer [data] and the [last_update] timestamp).  One execution of the
    script calls [update_data] once and then renders the page from the buffer.

    Modelling choices, all taken from the source:
    - Python floats are IEEE binary64: Rocq's primitive floats.
    - A [datetime] is its number of microseconds on the time line (the
      resolution of [datetime]); a [timedelta] is a difference of those.
    - What the outside world answers during one execution (the clock, the two
      [yf.download] calls, the draw of [np.random.normal]) is a record
      [world] handed to the script.
    - The calls the script makes to the outside ([yf.download], [st.error],
      the random draw) are logged in a writer monad [Script], in call order.
    - The buffer is modelled by the numbers it carries: a row holds, next
      to its timestamp, the float of its price cell, the float of its NAV
      cell and their binary64 difference.  That is the buffer itself when
      [yf.download] returns flat columns.  When it returns columns labelled
      by ticker as well, each cell is a one-element Series; the Python
      objects in the cells, the subtraction of line 91 on them and the
      expressions of the page that read them are modelled apart, under
      "Cells".
    - A page is run in an exception monad [Page]: what was shown, and the
      exception that stopped the script, if one was raised. *)

From Stdlib Require Import ZArith String Ascii Bool List Sorted Lia.
From Stdlib Require Import Permutation.
From Stdlib Require Import Floats.PrimFloat Floats.FloatOps Floats.SpecFloat.
From Stdlib Require Import Floats.FloatAxioms.
From Stdlib Require Import Numbers.Cyclic.Int63.Uint63.
From Stdlib Require Import Numbers.DecimalString.
Import ListNotations.

Set Warnings "-inexact-float".

Local Open Scope string_scope.
Local Open Scope list_scope.

(** ** Python numbers *)

Module PyNum.

(** [float(n)] for a Python int [n]; exact for [|n| < 2^53]. *)
Definition float_of_int (n : Z) : float :=
  if (n <? 0)%Z then PrimFloat.opp (PrimFloat.of_uint63 (Uint63.of_Z (- n)))
  else PrimFloat.of_uint63 (Uint63.of_Z n).

(** [pd.notnull(x)] on a float cell. *)
Definition notnull (x : float) : bool := negb (PrimFloat.is_nan x).

(** [x is positive] / [x is negative] as the styling code tests them. *)
Definition gt0 (x : float) : bool := PrimFloat.ltb PrimFloat.zero x.
Definition lt0 (x : float) : bool := PrimFloat.ltb x PrimFloat.zero.

Definition decimal_of_N (n : N) : string :=
  NilZero.string_of_uint (N.to_uint n).

Fixpoint zeros (k : nat) : string :=
  match k with
  | O => ""
  | S k' => String "0" (zeros k')
  end.

(** [str(n).rjust(width, "0")]. *)
Definition zero_padded (width : nat) (n : N) : string :=
  let s := decimal_of_N n in
  zeros (width - String.length s) ++ s.

(** Nearest integer to [num / den], ties to the even one ([den > 0]). *)
Definition round_half_even (num den : Z) : Z :=
  let q := (num / den)%Z in
  let r := (num mod den)%Z in
  match (2 * r ?= den)%Z with
  | Lt => q
  | Gt => (q + 1)%Z
  | Eq => if Z.even q then q else (q + 1)%Z
  end.

(** [|x| * 10^p] rounded to an integer, for finite [x = m * 2^e]. *)
Definition scaled_digits (p : nat) (m : positive) (e : Z) : Z :=
  let n := (Z.pos m * 10 ^ Z.of_nat p)%Z in
  if (0 <=? e)%Z then (n * 2 ^ e)%Z else round_half_even n (2 ^ (- e)).

Definition fixed_point (p : nat) (neg : bool) (n : Z) : string :=
  let unit := (10 ^ Z.of_nat p)%Z in
  (if neg then "-" else "")
    ++ decimal_of_N (Z.to_N (n / unit))
    ++ match p with
       | O => ""
       | _ => "." ++ zero_padded p (Z.to_N (n mod unit))
       end.

(** [format(x, ".<p>f")]: the decimal expansion of the exact binary value,
    correctly rounded (half to even) to [p] places, the sign kept also
    when the digits are all zero. *)
Definition format_f (p : nat) (x : float) : string :=
  match Prim2SF x with
  | S754_nan => "nan"
  | S754_infinity neg => if neg then "-inf" else "inf"
  | S754_zero neg => fixed_point p neg 0
  | S754_finite neg m e => fixed_point p neg (scaled_digits p m e)
  end.

End PyNum.

(** ** Data model *)

(** A [datetime], in microseconds. *)
Definition datetime := Z.
Bind Scope Z_scope with datetime.

(** [timedelta(minutes=2)]. *)
Definition two_minutes : Z := 120000000%Z.

(** [(a - b).total_seconds()]: the microseconds of the timedelta over [10**6]. *)
Definition total_seconds (td : Z) : float :=
  PrimFloat.div (PyNum.float_of_int td) (PyNum.float_of_int 1000000%Z).

(** One row of [st.session_state.data], by the numbers it carries. *)
Record Sample : Type := mkSample {
  timestamp : datetime;
  spy_price : float;
  nav_value : float;
  difference : float
}.

(** [st.session_state]. *)
Record session_state : Type := mkState {
  data : list Sample;
  last_update : datetime
}.

(** The session state the script creates when the keys are absent; [t0] is
    [datetime.now()] at that moment. *)
Definition initial_state (t0 : datetime) : session_state :=
  mkState [] (t0 - two_minutes)%Z.

(** ** The outside world *)

(** What [yf.download] does: it raises, or returns a frame whose [Close]
    column holds the given numbers (empty list: [frame.empty]).  Whether the
    columns are flat or labelled by ticker as well is the [frame_layout] of
    the part on cells. *)
Inductive download_result : Type :=
| Raises (exc : string)
| Frame (close : list float).

Record world : Type := mkWorld {
  now : datetime;                   (* datetime.now() in update_data *)
  spy_download : download_result;   (* yf.download("SPY", ...) *)
  gspc_download : download_result;  (* yf.download("^GSPC", ...) *)
  normal_draw : float               (* np.random.normal(0, 0.001) *)
}.

Inductive event : Type :=
| YfDownload (symbol : string)
| RandomNormal
| StError (msg : string).

(** ** The writer monad of outside calls *)

Definition Script (A : Type) : Type := (A * list event)%type.

Definition ret {A : Type} (a : A) : Script A := (a, []).

Definition bind {A B : Type} (m : Script A) (k : A -> Script B) : Script B :=
  let (b, l2) := k (fst m) in (b, snd m ++ l2).

Definition emit (e : event) : Script unit := (tt, [e]).

Notation "x <- m ;; k" := (bind m (fun x => k))
  (at level 61, m at next level, right associativity).
Notation "m ;;; k" := (bind m (fun _ => k))
  (at level 61, right associativity).

Definition value {A : Type} (m : Script A) : A := fst m.
Definition trace {A : Type} (m : Script A) : list event := snd m.

(** ** Price Fetcher and NAV Approximator *)

(** [series.iloc[-1]]. *)
Definition iloc_last (close : list float) : float := last close PrimFloat.nan.

Definition fetch_spy_price (w : world) : Script (option float) :=
  emit (YfDownload "SPY") ;;;
  match spy_download w with
  | Frame [] =>
      emit (StError "Failed to retrieve SPY price data") ;;; ret None
  | Frame close => ret (Some (iloc_last close))
  | Raises e =>
      emit (StError ("Error fetching SPY price: " ++ e)) ;;; ret None
  end.

Definition nav_scaling_factor : float := 0.1%float.

Definition calculate_approx_nav (w : world) : Script (option float) :=
  emit (YfDownload "^GSPC") ;;;
  match gspc_download w with
  | Frame [] =>
      emit (StError "Failed to retrieve S&P 500 index data") ;;; ret None
  | Frame close =>
      let sp500_value := iloc_last close in
      let approx_nav := PrimFloat.mul sp500_value nav_scaling_factor in
      emit RandomNormal ;;;
      let noise := normal_draw w in
      let approx_nav := PrimFloat.mul approx_nav (PrimFloat.add 1%float noise) in
      ret (Some approx_nav)
  | Raises e =>
      emit (StError ("Error calculating approximate NAV: " ++ e)) ;;; ret None
  end.

(** ** Sample Aggregator *)

Definition buffer_capacity : nat := 3600.

(** [df.iloc[-n:]]: the last [n] rows. *)
Definition iloc_tail (n : nat) (rows : list Sample) : list Sample :=
  skipn (length rows - n) rows.

Definition update_data (w : world) (st : session_state)
  : Script (bool * session_state) :=
  let current_time := now w in
  let time_diff := total_seconds (current_time - last_update st)%Z in
  if PrimFloat.ltb time_diff 0.9%float then ret (false, st)
  else
    spy_price <- fetch_spy_price w ;;
    nav_value <- calculate_approx_nav w ;;
    match spy_price, nav_value with
    | Some spy_price, Some nav_value =>
        let difference := PrimFloat.sub spy_price nav_value in
        let new_data := mkSample current_time spy_price nav_value difference in
        let data1 := data st ++ [new_data] in
        let data2 :=
          if (buffer_capacity <? length data1)%nat
          then iloc_tail buffer_capacity data1 else data1 in
        ret (true, mkState data2 current_time)
    | _, _ => ret (false, st)
    end.

Definition updated (r : Script (bool * session_state)) : bool := fst (value r).
Definition state_after (r : Script (bool * session_state)) : session_state :=
  snd (value r).

(** The sidebar's "Force Refresh Data" button, pressed at time [t]. *)
Definition force_refresh (t : datetime) (st : session_state) : session_state :=
  mkState (data st) (t - two_minutes)%Z.

(** Session states the script can be in: the initial one, and what an
    execution of [update_data] or a press of the button leaves. *)
Inductive reachable : session_state -> Prop :=
| reach_initial (t0 : datetime) : reachable (initial_state t0)
| reach_update (w : world) (st : session_state) :
    reachable st -> reachable (state_after (update_data w st))
| reach_force (t : datetime) (st : session_state) :
    reachable st -> reachable (force_refresh t st).

(** ** Presentation Layer *)

(** [df.sort_values('timestamp', ascending=False)]: newest first.  Rows with
    equal timestamps keep their buffer order. *)
Fixpoint insert_newest_first (s : Sample) (rows : list Sample) : list Sample :=
  match rows with
  | [] => [s]
  | r :: rows' =>
      if (timestamp r <=? timestamp s)%Z then s :: rows
      else r :: insert_newest_first s rows'
  end.

Definition sort_newest_first (rows : list Sample) : list Sample :=
  fold_right insert_newest_first [] rows.

(** [column.shift(-1)]: every cell takes the value of the next row, the last
    one becomes NaN. *)
Definition shift_up (column : list float) : list float :=
  match column with
  | [] => []
  | _ :: rest => rest ++ [PrimFloat.nan]
  end.

(** A row of [table_data]: the sample and the three computed columns. *)
Record table_row : Type := mkRow {
  row_sample : Sample;
  prev_spy_price : float;
  price_change : float;
  price_change_pct : float
}.

Definition table_rows : nat := 15.

Definition with_changes (s : Sample) (prev : float) : table_row :=
  let change := PrimFloat.sub (spy_price s) prev in
  mkRow s prev change (PrimFloat.mul (PrimFloat.div change prev) 100%float).

Definition table_data (buffer : list Sample) : list table_row :=
  let shown := firstn table_rows (sort_newest_first buffer) in
  map (fun sp => with_changes (fst sp) (snd sp))
      (combine shown (shift_up (map spy_price shown))).

(** A row of [display_table], columns in display order. *)
Record display_row : Type := mkDisplay {
  col_timestamp : datetime;
  col_spy_price : string;
  col_previous_price : string;
  col_change : string;
  col_change_pct : string;
  col_nav_value : string;
  col_difference : string
}.

Definition dollars (p : nat) (x : float) : string := "$" ++ PyNum.format_f p x.

Definition if_notnull (x : float) (s : string) : string :=
  if PyNum.notnull x then s else "".

Definition display (r : table_row) : display_row :=
  let s := row_sample r in
  mkDisplay
    (timestamp s)
    (dollars 2 (spy_price s))
    (if_notnull (prev_spy_price r) (dollars 2 (prev_spy_price r)))
    (if_notnull (price_change r) (dollars 4 (price_change r)))
    (if_notnull (price_change_pct r)
                (PyNum.format_f 4 (price_change_pct r) ++ "%")%string)
    (dollars 2 (nav_value s))
    (dollars 4 (difference s)).

Inductive cell_style : Type := Green | Red | Unstyled.

(** The colour [style_df] gives a cell holding [x]; comparisons with NaN are
    false, so [pd.notnull] adds nothing to the two tests. *)
Definition colour (x : float) : cell_style :=
  if PyNum.notnull x then
    if PyNum.gt0 x then Green else if PyNum.lt0 x then Red else Unstyled
  else Unstyled.

(** Styles of the [Change], [Change %] and [Difference] cells of a row. *)
Definition style_df (r : table_row) : cell_style * cell_style * cell_style :=
  (colour (price_change r), colour (price_change_pct r),
   if PyNum.gt0 (difference (row_sample r)) then Green
   else if PyNum.lt0 (difference (row_sample r)) then Red else Unstyled).

(** ** Cells *)

(** What a download's [frame['Close']] is.  With flat columns it is a column
    of floats and [iloc[-1]] is a float.  With columns labelled by ticker as
    well (the layout the metrics presuppose when they read
    [cell.to_numpy()[0]]) it is a one-column frame and [iloc[-1]] is a
    one-element Series labelled by the ticker. *)
Inductive frame_layout : Type := FlatColumns | TickerColumns.

(** A pandas Series of floats: labels and values, in index order. *)
Definition Series : Type := list (string * float).

Inductive cell : Type :=
| Scalar (x : float)
| Labelled (s : Series).

(** [frame['Close'].iloc[-1]] for a last close of [close]. *)
Definition close_cell (layout : frame_layout) (ticker : string) (close : float)
  : cell :=
  match layout with
  | FlatColumns => Scalar close
  | TickerColumns => Labelled [(ticker, close)]
  end.

Module Pandas.

Definition labels (s : Series) : list string := map fst s.

(** The value under a label after reindexing: NaN where the label is
    absent. *)
Definition value_at (label : string) (s : Series) : float :=
  match find (fun kv => String.eqb (fst kv) label) s with
  | Some kv => snd kv
  | None => PrimFloat.nan
  end.

Fixpoint insert_label (l : string) (ls : list string) : list string :=
  match ls with
  | [] => [l]
  | x :: rest =>
      match String.compare l x with
      | Lt => l :: ls
      | Eq => ls
      | Gt => x :: insert_label l rest
      end
  end.

(** [a.union(b)] of two indexes: [a] itself when they are equal, the sorted
    labels of both otherwise. *)
Definition union (a b : list string) : list string :=
  if list_eq_dec string_dec a b then a
  else fold_right insert_label [] (a ++ b).

(** [a - b] and the like on two Series: both are aligned on the union of
    their indexes, then combined label by label. *)
Definition binop (op : float -> float -> float) (a b : Series) : Series :=
  map (fun l => (l, op (value_at l a) (value_at l b)))
      (union (labels a) (labels b)).

End Pandas.

(** An arithmetic operator of Python on two cells. *)
Definition cell_binop (op : float -> float -> float) (a b : cell) : cell :=
  match a, b with
  | Scalar x, Scalar y => Scalar (op x y)
  | Labelled s, Scalar y => Labelled (map (fun kv => (fst kv, op (snd kv) y)) s)
  | Scalar x, Labelled s => Labelled (map (fun kv => (fst kv, op x (snd kv))) s)
  | Labelled s, Labelled t => Labelled (Pandas.binop op s t)
  end.

(** The cell [fetch_spy_price] returns (line 37). *)
Definition price_cell (layout : frame_layout) (close : float) : cell :=
  close_cell layout "SPY" close.

(** The cell [calculate_approx_nav] returns (lines 60 to 69). *)
Definition nav_cell (layout : frame_layout) (index_close noise : float)
  : cell :=
  let sp500_value := close_cell layout "^GSPC" index_close in
  let approx_nav :=
    cell_binop PrimFloat.mul sp500_value (Scalar nav_scaling_factor) in
  cell_binop PrimFloat.mul approx_nav (Scalar (PrimFloat.add 1%float noise)).

(** [difference = spy_price - nav_value] (line 91). *)
Definition difference_cell (spy_price nav_value : cell) : cell :=
  cell_binop PrimFloat.sub spy_price nav_value.

(** A row of the buffer as Python objects. *)
Record cell_row : Type := mkCells {
  cell_timestamp : datetime;
  cell_spy_price : cell;
  cell_nav_value : cell;
  cell_difference : cell
}.

(** The cells behind a row of numbers: the price and the NAV under the
    labels the downloads gave them, and their difference as line 91 takes
    it on those cells. *)
Definition cells_of (layout : frame_layout) (s : Sample) : cell_row :=
  let p := close_cell layout "SPY" (spy_price s) in
  let n := close_cell layout "^GSPC" (nav_value s) in
  mkCells (timestamp s) p n (difference_cell p n).

(** ** The page, up to the table *)

Inductive py_error : Type := AttributeError | TypeError | IndexError.

(** An exception, and the line of the script that raised it. *)
Record raised : Type := raise_at { error : py_error; line : nat }.

(** [cell.to_numpy()[0]] (lines 152 to 167): a float has no [to_numpy]. *)
Definition to_numpy_0 (c : cell) : py_error + float :=
  match c with
  | Scalar _ => inl AttributeError
  | Labelled [] => inl IndexError
  | Labelled (kv :: _) => inr (snd kv)
  end.

(** [f"{x:.<p>f}"] with a cell for [x] (lines 263 to 268): a Series takes no
    format specification. *)
Definition format_cell (p : nat) (c : cell) : py_error + string :=
  match c with
  | Scalar x => inr (PyNum.format_f p x)
  | Labelled _ => inl TypeError
  end.

(** [column.apply(lambda x: f"${x:.<p>f}")]: the cells in order, up to the
    first one that raises. *)
Fixpoint format_column (p : nat) (column : list cell)
  : py_error + list string :=
  match column with
  | [] => inr []
  | c :: rest =>
      match format_cell p c with
      | inl e => inl e
      | inr text =>
          match format_column p rest with
          | inl e => inl e
          | inr texts => inr (("$" ++ text)%string :: texts)
          end
      end
  end.

(** What the page shows up to the table: a metric, the chart, the
    subheader and the introduction of the table (lines 247 and 248), the
    waiting notice. *)
Inductive widget : Type :=
| Metric (label value : string) (delta : option string)
| PlotlyChart
| TableHeading
| Info (text : string).

(** What the page has shown so far, and either the exception that stopped
    it or a result. *)
Definition Page (A : Type) : Type := (list widget * (raised + A))%type.

Definition page_ret {A : Type} (a : A) : Page A := ([], inr a).

Definition page_bind {A B : Type} (m : Page A) (k : A -> Page B) : Page B :=
  match snd m with
  | inl r => (fst m, inl r)
  | inr a => (fst m ++ fst (k a), snd (k a))
  end.

Definition show (wd : widget) : Page unit := ([wd], inr tt).

(** The value of an expression of line [l], or the exception it raises. *)
Definition eval {A : Type} (l : nat) (r : py_error + A) : Page A :=
  match r with
  | inl e => ([], inl (raise_at e l))
  | inr a => ([], inr a)
  end.

Notation "x <~ m ;; k" := (page_bind m (fun x => k))
  (at level 61, m at next level, right associativity).
Notation "m ~> k" := (page_bind m (fun _ => k))
  (at level 61, right associativity).

(** The three headline metrics (lines 149 to 169); the arguments of a call
    are evaluated before the call shows anything. *)
Definition st_metrics (latest_data : cell_row) : Page unit :=
  p <~ eval 152 (to_numpy_0 (cell_spy_price latest_data)) ;;
  show (Metric "SPY Price" (dollars 2 p) None) ~>
  n <~ eval 159 (to_numpy_0 (cell_nav_value latest_data)) ;;
  show (Metric "Estimated NAV" (dollars 2 n) None) ~>
  d <~ eval 166 (to_numpy_0 (cell_difference latest_data)) ;;
  d' <~ eval 167 (to_numpy_0 (cell_difference latest_data)) ;;
  n' <~ eval 167 (to_numpy_0 (cell_nav_value latest_data)) ;;
  show (Metric "Difference (Price - NAV)" (dollars 4 d)
          (Some (PyNum.format_f 4
                   (PrimFloat.mul (PrimFloat.div d' n') 100%float)
                 ++ "%")%string)).

(** The chart (lines 172 to 244).  What plotly makes of a column of cells is
    not in the script: [plot] is the exception it raises, if any, put at the
    call of line 244. *)
Definition st_plotly_chart (plot : option py_error) : Page unit :=
  match plot with
  | Some e => ([], inl (raise_at e 244))
  | None => show PlotlyChart
  end.

(** The table (lines 251 to 327).  The columns that hold cells are formatted
    on lines 263, 267 and 268; the computed columns and the styles are
    floats and strings, and raise nothing; the call of line 319 passes
    [style=], a parameter [st.dataframe] does not have. *)
Definition st_table (layout : frame_layout) (buffer : list Sample)
  : Page unit :=
  if (1 <? length buffer)%nat then
    let rows :=
      map (cells_of layout) (firstn table_rows (sort_newest_first buffer)) in
    eval 263 (format_column 2 (map cell_spy_price rows)) ~>
    eval 267 (format_column 2 (map cell_nav_value rows)) ~>
    eval 268 (format_column 4 (map cell_difference rows)) ~>
    eval 319 (inl TypeError : py_error + unit)
  else page_ret tt.

(** The page from line 146 to line 327, or the waiting notice of line 338:
    it ends with a result when the script gets as far as the caption. *)
Definition page_until_caption
    (layout : frame_layout) (plot : option py_error) (buffer : list Sample)
  : Page unit :=
  match rev buffer with
  | [] => show (Info "Waiting for data... First update should appear shortly.")
  | latest_data :: _ =>
      st_metrics (cells_of layout latest_data) ~>
      st_plotly_chart plot ~>
      show TableHeading ~>
      st_table layout buffer
  end.

(** The exception that stopped a page, if any. *)
Definition stopped {A : Type} (pg : Page A) : option raised :=
  match snd pg with
  | inl r => Some r
  | inr _ => None
  end.

(** ** Vocabulary of the statements *)

(** The debounce test of [update_data]: less than 0.9 s since [last_update]. *)
Definition debounced (w : world) (st : session_state) : bool :=
  PrimFloat.ltb (total_seconds (now w - last_update st)%Z) 0.9%float.

(** The row [update_data] builds from a price and a NAV. *)
Definition new_sample (w : world) (p n : float) : Sample :=
  mkSample (now w) p n (PrimFloat.sub p n).

(** The buffer with [s] appended, less the rows dropped at the front. *)
Definition appended (st : session_state) (s : Sample) : list Sample :=
  skipn (length (data st) + 1 - buffer_capacity) (data st ++ [s]).

(** The outcome of the two upstream calls. *)
Definition price_of (w : world) : option float := value (fetch_spy_price w).
Definition nav_of (w : world) : option float := value (calculate_approx_nav w).

Definition is_spy_download (e : event) : bool :=
  match e with
  | YfDownload symbol => String.eqb symbol "SPY"
  | _ => false
  end.

(** The slice of the buffer the table shows: newest first, 15 rows. *)
Definition shown_slice (buffer : list Sample) : list Sample :=
  firstn table_rows (sort_newest_first buffer).

(** The price one row below in a slice, NaN under the last row. *)
Definition price_below (shown : list Sample) (i : nat) : float :=
  match nth_error shown (S i) with
  | Some older => spy_price older
  | None => PrimFloat.nan
  end.

(** [x] is a NaN, in terms of the IEEE view of the float. *)
Definition isNaN (x : float) : Prop := Prim2SF x = S754_nan.

(** ** Sample inputs *)

Module Inputs.

Definition tick (t : datetime) (spy gspc : download_result) : world :=
  mkWorld t spy gspc 0%float.

(** Both downloads answer: SPY closes at 501, the index at 5000. *)
Definition both_ok (t : datetime) : world :=
  tick t (Frame [500%float; 501%float]) (Frame [4990%float; 5000%float]).

(** The SPY download comes back empty, the index answers. *)
Definition spy_empty (t : datetime) : world :=
  tick t (Frame []) (Frame [5000%float]).

(** The SPY download answers, the index download raises. *)
Definition gspc_raises (t : datetime) : world :=
  tick t (Frame [501%float]) (Raises "timeout").

Definition fresh : session_state := mkState [] 0%Z.

Definition sample_at (t : datetime) (price : float) : Sample :=
  mkSample t price 500%float (PrimFloat.sub price 500%float).

(** A buffer filled to capacity. *)
Definition full : session_state :=
  mkState (repeat (sample_at 0%Z 500%float) buffer_capacity) 0%Z.

(** Two samples one second apart: 500.0, then 501.0. *)
Definition two_prices : list Sample :=
  [sample_at 0%Z 500%float; sample_at 1000000%Z 501%float].

End Inputs.

(** ** Vocabulary of the further properties *)

(** The end of the script: after [time.sleep(0.1)] the clock is read again,
    at [t_end], and [st.rerun()] is called when at least one second has
    passed since [last_update]. *)
Definition rerun_due (t_end : datetime) (st : session_state) : bool :=
  PrimFloat.leb 1%float (total_seconds (t_end - last_update st)%Z).

(** The largest [datetime], 9999-12-31 23:59:59.999999, counted in
    microseconds from the smallest, 0001-01-01 00:00:00. *)
Definition datetime_max : Z := 315537897599999999%Z.

Definition datetime_ok (t : datetime) : Prop := (0 <= t <= datetime_max)%Z.

(** A number of microseconds that a native 63-bit integer holds. *)
Definition timedelta_ok (d : Z) : Prop := (- 2 ^ 63 < d < 2 ^ 63)%Z.

(** Session states reached without the "Force Refresh Data" button, with
    clock readings that are datetimes. *)
Inductive unattended : session_state -> Prop :=
| unattended_initial (t0 : datetime) :
    datetime_ok t0 -> unattended (initial_state t0)
| unattended_update (w : world) (st : session_state) :
    datetime_ok (now w) -> unattended st ->
    unattended (state_after (update_data w st)).

(** Consecutive rows are at least 0.9 s apart, in buffer order. *)
Definition spaced (rows : list Sample) : Prop :=
  Sorted (fun a b => (timestamp a + 900000 <= timestamp b)%Z) rows.

(** Newest first: no row is newer than a row before it. *)
Definition newest_first (rows : list Sample) : Prop :=
  StronglySorted (fun a b => (timestamp b <= timestamp a)%Z) rows.

Definition is_download (e : event) : bool :=
  match e with
  | YfDownload _ => true
  | _ => false
  end.

Definition is_error (e : event) : bool :=
  match e with
  | StError _ => true
  | _ => false
  end.

Definition is_noise (e : event) : bool :=
  match e with
  | RandomNormal => true
  | _ => false
  end.

Definition failed (r : option float) : nat :=
  match r with
  | Some _ => 0
  | None => 1
  end.

Definition failures (w : world) : nat :=
  failed (price_of w) + failed (nav_of w).

(** *** IEEE view of the floats the script compares *)

(** [r] is the infinity of sign [s], or a finite float of sign [s] and of
    exponent at least [e0]. *)
Definition at_least (s : bool) (e0 : Z) (r : spec_float) : Prop :=
  r = S754_infinity s \/
  exists m e, r = S754_finite s m e /\ (e0 <= e)%Z.

(** The doubles 1000000.0, 0.9 and 1.0. *)
Definition million : spec_float := S754_finite false 8589934592000000 (-33).
Definition nine_tenths : spec_float :=
  S754_finite false 8106479329266893 (-53).
Definition one : spec_float := S754_finite false 4503599627370496 (-52).

(** The two comparisons the script makes on [total_seconds], on a native
    integer number of microseconds, against what they should say. *)
Definition thresholds_agree (i : int) : bool :=
  let seconds := PrimFloat.div (PrimFloat.of_uint63 i)
                               (PrimFloat.of_uint63 1000000) in
  Bool.eqb (PrimFloat.ltb seconds 0.9%float) (i <? 900000)%uint63
  && Bool.eqb (PrimFloat.leb 1%float seconds) (1000000 <=? i)%uint63.

(** [thresholds_agree] on the [2^k] integers from [lo] on. *)
Fixpoint agree_on_block (k : nat) (lo : int) : bool :=
  match k with
  | O => thresholds_agree lo
  | S k' =>
      agree_on_block k' lo
      && agree_on_block k' (lo + Uint63.of_Z (2 ^ Z.of_nat k'))%uint63
  end.

(** * Properties *)

(** ** The aggregation step, case by case *)

Section UpdateData.

Variable w : world.
Variable st : session_state.

Lemma update_data_debounced :
  debounced w st = true -> update_data w st = (false, st, []).
Proof.
  unfold debounced, update_data. intros ->. reflexivity.
Qed.

Lemma update_data_attempt :
  debounced w st = false ->
  update_data w st =
    (match price_of w, nav_of w with
     | Some p, Some n =>
         (true, mkState (appended st (new_sample w p n)) (now w))
     | _, _ => (false, st)
     end,
     trace (fetch_spy_price w) ++ trace (calculate_approx_nav w)).
Proof.
  unfold debounced, update_data, price_of, nav_of. intros ->.
  unfold bind at 1. unfold bind at 1.
  destruct (fetch_spy_price w) as [[p|] tp];
    destruct (calculate_approx_nav w) as [[n|] tn]; cbn [fst snd value trace];
    unfold ret; rewrite ?app_nil_r; try reflexivity.
  do 2 f_equal. f_equal.
  unfold appended, new_sample, iloc_tail.
  rewrite length_app. cbn [length].
  destruct (Nat.ltb_spec buffer_capacity (length (data st) + 1)) as [H|H].
  - reflexivity.
  - replace (length (data st) + 1 - buffer_capacity) with 0 by lia.
    reflexivity.
Qed.

Lemma appended_length (s : Sample) :
  length (appended st s) = Nat.min (length (data st) + 1) buffer_capacity.
Proof.
  unfold appended. rewrite length_skipn, length_app. cbn [length]. lia.
Qed.

Lemma appended_below_capacity (s : Sample) :
  length (data st) < buffer_capacity -> appended st s = data st ++ [s].
Proof.
  intros H. unfold appended.
  replace (length (data st) + 1 - buffer_capacity) with 0 by lia.
  reflexivity.
Qed.

(** Cutting to capacity removes rows at the front only: what is left of
    the old buffer is one of its suffixes, and the new row is last. *)
Lemma appended_fifo (s : Sample) :
  appended st s
  = skipn (length (data st) + 1 - buffer_capacity) (data st) ++ [s].
Proof.
  assert (0 < buffer_capacity) as C by (unfold buffer_capacity; lia).
  unfold appended. rewrite skipn_app.
  replace (length (data st) + 1 - buffer_capacity - length (data st))
    with 0 by lia.
  reflexivity.
Qed.

Lemma update_data_not_updated :
  updated (update_data w st) = false -> state_after (update_data w st) = st.
Proof.
  destruct (debounced w st) eqn:G.
  - rewrite (update_data_debounced G). reflexivity.
  - rewrite (update_data_attempt G). unfold updated, state_after, value.
    cbn [fst snd].
    destruct (price_of w), (nav_of w); cbn; congruence.
Qed.

Lemma update_data_updated :
  updated (update_data w st) = true ->
  exists p n,
    debounced w st = false /\
    price_of w = Some p /\
    nav_of w = Some n /\
    state_after (update_data w st)
    = mkState (appended st (new_sample w p n)) (now w).
Proof.
  destruct (debounced w st) eqn:G.
  - rewrite (update_data_debounced G). discriminate.
  - rewrite (update_data_attempt G). unfold updated, state_after, value.
    cbn [fst snd].
    destruct (price_of w) as [p|]; destruct (nav_of w) as [n|];
      cbn; try discriminate.
    intros _. exists p, n. auto.
Qed.

End UpdateData.

(** The debounce test on the two delays of the specification. *)
Lemma debounced_half_second (w : world) (st : session_state) :
  now w = (last_update st + 500000)%Z -> debounced w st = true.
Proof.
  intros E. unfold debounced. rewrite E, Z.add_simpl_l. reflexivity.
Qed.

Lemma debounced_one_second (w : world) (st : session_state) :
  now w = (last_update st + 1000000)%Z -> debounced w st = false.
Proof.
  intros E. unfold debounced. rewrite E, Z.add_simpl_l. reflexivity.
Qed.

(** ** Upstream calls: their outcome and their trace *)

Lemma fetch_spy_price_fails (w : world) :
  price_of w = None ->
  exists msg, trace (fetch_spy_price w) = [YfDownload "SPY"; StError msg].
Proof.
  unfold price_of, fetch_spy_price.
  destruct (spy_download w) as [e|[|c close]]; cbn; intros H.
  - eexists. reflexivity.
  - eexists. reflexivity.
  - discriminate.
Qed.

Lemma calculate_approx_nav_no_spy (w : world) :
  filter is_spy_download (trace (calculate_approx_nav w)) = [].
Proof.
  unfold calculate_approx_nav.
  destruct (gspc_download w) as [e|[|c close]]; reflexivity.
Qed.

Lemma calculate_approx_nav_value (w : world) (close : list float) :
  gspc_download w = Frame close -> close <> [] ->
  nav_of w
  = Some (PrimFloat.mul (PrimFloat.mul (iloc_last close) nav_scaling_factor)
                        (PrimFloat.add 1%float (normal_draw w))).
Proof.
  unfold nav_of, calculate_approx_nav. intros -> H.
  destruct close as [|c close]; [congruence|]. reflexivity.
Qed.

(** ** Invariants of the session state *)

Lemma update_data_keeps_bound (w : world) (st : session_state) :
  length (data st) <= buffer_capacity ->
  length (data (state_after (update_data w st))) <= buffer_capacity.
Proof.
  intros H. destruct (updated (update_data w st)) eqn:U.
  - destruct (update_data_updated w st U) as (p & n & _ & _ & _ & ->).
    cbn [data]. rewrite appended_length. lia.
  - rewrite (update_data_not_updated w st U). exact H.
Qed.

Lemma reachable_bounded (st : session_state) :
  reachable st -> length (data st) <= buffer_capacity.
Proof.
  intros R. induction R as [t0|w st R IH|t st R IH].
  - cbn. lia.
  - apply update_data_keeps_bound, IH.
  - exact IH.
Qed.

(** ** The claims about the Sample Aggregator *)

(** C1: the buffer never holds more than 3600 rows: in every reachable
    session state, and after [update_data] from any state within the bound.
    When [update_data] appends, from any prior buffer whatever, the new
    buffer is the old one less its [length + 1 - 3600] oldest rows (none when
    that is not positive), followed by the new row; its length is
    [min (length + 1) 3600]. *)
Theorem rolling_buffer_bounded :
  (forall st, reachable st -> length (data st) <= 3600) /\
  (forall w st, length (data st) <= 3600 ->
     length (data (state_after (update_data w st))) <= 3600) /\
  (forall w st, updated (update_data w st) = true ->
     exists s,
       data (state_after (update_data w st))
       = skipn (length (data st) + 1 - 3600) (data st) ++ [s] /\
       length (data (state_after (update_data w st)))
       = Nat.min (length (data st) + 1) 3600).
Proof.
  change 3600 with buffer_capacity.
  split; [exact reachable_bounded|].
  split; [exact update_data_keeps_bound|].
  intros w st U.
  destruct (update_data_updated w st U) as (p & n & _ & _ & _ & ->).
  exists (new_sample w p n). cbn [data].
  split; [apply appended_fifo|apply appended_length].
Qed.

Lemma rolling_buffer_bounded_witness :
  length (data (state_after (update_data (Inputs.both_ok 1000000) Inputs.full)))
  <= 3600
  /\ length (data (state_after (update_data (Inputs.both_ok 1000000)
                                            Inputs.full)))
     = Nat.min (length (data Inputs.full) + 1) 3600.
Proof.
  split.
  - apply (proj1 (proj2 rolling_buffer_bounded)).
    apply Nat.leb_le. vm_compute. reflexivity.
  - destruct (proj2 (proj2 rolling_buffer_bounded)
                (Inputs.both_ok 1000000) Inputs.full) as (s & _ & L).
    + vm_compute. reflexivity.
    + exact L.
Defined.

(** C3: one second after [last_update], with both upstream calls answering,
    [update_data] returns [True], sets [last_update] to the current time and
    appends exactly one row, built from the two answers; it is the last row
    of the new buffer, behind the old rows (all of them below capacity, all
    but the oldest at capacity). *)
Theorem tick_after_one_second
    (w : world) (st : session_state) (p n : float) :
  now w = (last_update st + 1000000)%Z ->
  price_of w = Some p ->
  nav_of w = Some n ->
  updated (update_data w st) = true /\
  last_update (state_after (update_data w st)) = now w /\
  data (state_after (update_data w st))
  = skipn (length (data st) + 1 - 3600) (data st) ++ [new_sample w p n] /\
  (length (data st) < 3600 ->
   data (state_after (update_data w st)) = data st ++ [new_sample w p n]).
Proof.
  intros T P N. change 3600 with buffer_capacity.
  rewrite (update_data_attempt w st (debounced_one_second w st T)), P, N.
  unfold updated, state_after, value. cbn [fst snd data last_update].
  repeat split.
  - apply appended_fifo.
  - apply appended_below_capacity.
Qed.

Lemma tick_after_one_second_witness :
  updated (update_data (Inputs.both_ok 1000000) Inputs.fresh) = true /\
  last_update (state_after (update_data (Inputs.both_ok 1000000) Inputs.fresh))
  = 1000000%Z.
Proof.
  destruct (tick_after_one_second (Inputs.both_ok 1000000) Inputs.fresh
              501%float 500%float) as (U & L & _).
  - reflexivity.
  - reflexivity.
  - reflexivity.
  - split; [exact U|exact L].
Defined.

(** C4: half a second after [last_update], [update_data] returns [False]
    and leaves the session state as it was, without calling anything
    outside: no download, whatever the downloads would have answered. *)
Theorem tick_after_half_second (w : world) (st : session_state) :
  now w = (last_update st + 500000)%Z ->
  update_data w st = (false, st, []).
Proof.
  intros T. apply update_data_debounced, debounced_half_second, T.
Qed.

Lemma tick_after_half_second_witness :
  update_data (Inputs.both_ok 500000) Inputs.fresh = (false, Inputs.fresh, []).
Proof.
  apply (tick_after_half_second (Inputs.both_ok 500000) Inputs.fresh).
  reflexivity.
Defined.

(** C5: when exactly one of the two upstream calls fails, [update_data]
    returns [False] and the session state, buffer included, is unchanged. *)
Theorem one_upstream_failure (w : world) (st : session_state) :
  (price_of w = None /\ nav_of w <> None) \/
  (price_of w <> None /\ nav_of w = None) ->
  updated (update_data w st) = false /\
  state_after (update_data w st) = st /\
  data (state_after (update_data w st)) = data st.
Proof.
  intros H.
  assert (updated (update_data w st) = false) as U.
  { destruct (debounced w st) eqn:G.
    - rewrite (update_data_debounced w st G). reflexivity.
    - rewrite (update_data_attempt w st G). unfold updated, value.
      cbn [fst].
      destruct H as [[-> _]|[_ ->]]; [reflexivity|].
      destruct (price_of w); reflexivity. }
  split; [exact U|].
  rewrite (update_data_not_updated w st U). split; reflexivity.
Qed.

Lemma one_upstream_failure_witness :
  updated (update_data (Inputs.spy_empty 1000000) Inputs.fresh) = false /\
  updated (update_data (Inputs.gspc_raises 1000000) Inputs.fresh) = false.
Proof.
  split.
  - apply (one_upstream_failure (Inputs.spy_empty 1000000) Inputs.fresh).
    left. split; [reflexivity|discriminate].
  - apply (one_upstream_failure (Inputs.gspc_raises 1000000) Inputs.fresh).
    right. split; [discriminate|reflexivity].
Defined.

(** C6: when the price fetch of a tick fails, [update_data] returns [False]
    and leaves the session state unchanged (no row, complete or partial, is
    added); the fetch has shown an [st.error] message; and SPY was downloaded
    once only in the tick.  The calls made are: the SPY download, the error
    message, then those of [calculate_approx_nav], which is still called. *)
Theorem price_fetch_failure (w : world) (st : session_state) :
  debounced w st = false ->
  price_of w = None ->
  updated (update_data w st) = false /\
  state_after (update_data w st) = st /\
  (exists msg,
     trace (update_data w st)
     = YfDownload "SPY" :: StError msg :: trace (calculate_approx_nav w)) /\
  length (filter is_spy_download (trace (update_data w st))) = 1.
Proof.
  intros G P.
  destruct (fetch_spy_price_fails w P) as (msg & T).
  rewrite (update_data_attempt w st G), P, T.
  unfold updated, state_after, value, trace. cbn [fst snd].
  repeat split.
  - exists msg. reflexivity.
  - cbn [app filter is_spy_download]. cbn [String.eqb Ascii.eqb Bool.eqb].
    cbn [length]. f_equal.
    change (snd (calculate_approx_nav w))
      with (trace (calculate_approx_nav w)).
    rewrite calculate_approx_nav_no_spy. reflexivity.
Qed.

Lemma price_fetch_failure_witness :
  state_after (update_data (Inputs.spy_empty 1000000) Inputs.fresh)
  = Inputs.fresh /\
  length (filter is_spy_download
            (trace (update_data (Inputs.spy_empty 1000000) Inputs.fresh))) = 1.
Proof.
  destruct (price_fetch_failure (Inputs.spy_empty 1000000) Inputs.fresh)
    as (_ & S & _ & L).
  - reflexivity.
  - reflexivity.
  - split; [exact S|exact L].
Defined.

(** C8: when the index download answers, the approximate NAV is
    [index_value * nav_scaling_factor * (1 + noise)], the products taken
    from left to right in binary64, with [nav_scaling_factor] the double
    nearest to 0.1; for an index value of 5000 and a noise of 0 it is the
    double 500.0. *)
Theorem approx_nav_formula :
  (forall w close,
     gspc_download w = Frame close -> close <> [] ->
     nav_of w
     = Some (PrimFloat.mul (PrimFloat.mul (iloc_last close) nav_scaling_factor)
                           (PrimFloat.add 1%float (normal_draw w)))) /\
  nav_scaling_factor = 0.1%float /\
  (forall w older,
     gspc_download w = Frame (older ++ [5000%float]) ->
     normal_draw w = 0%float ->
     nav_of w = Some 500%float).
Proof.
  split; [exact calculate_approx_nav_value|].
  split; [reflexivity|].
  intros w older D Z0.
  rewrite (calculate_approx_nav_value w _ D).
  - unfold iloc_last. rewrite last_last, Z0. reflexivity.
  - destruct older; discriminate.
Qed.

Lemma approx_nav_formula_witness :
  nav_of (Inputs.both_ok 1000000) = Some 500%float.
Proof.
  apply (proj2 (proj2 approx_nav_formula) (Inputs.both_ok 1000000)
           [4990%float]); reflexivity.
Defined.

(** C9: whenever [update_data] returns [False], whether it was debounced or
    an upstream call failed, the whole session state is unchanged:
    [last_update] as well as the buffer.  The next tick is therefore treated
    exactly as it would have been without the failed one: it is debounced
    against the same [last_update], and if it passes that test and both
    upstream calls answer, it appends. *)
Theorem no_sample_no_reset (w w' : world) (st : session_state) :
  updated (update_data w st) = false ->
  last_update (state_after (update_data w st)) = last_update st /\
  data (state_after (update_data w st)) = data st /\
  update_data w' (state_after (update_data w st)) = update_data w' st /\
  (debounced w' st = false ->
   price_of w' <> None -> nav_of w' <> None ->
   updated (update_data w' (state_after (update_data w st))) = true).
Proof.
  intros U. rewrite (update_data_not_updated w st U).
  repeat split.
  intros G P N. rewrite (update_data_attempt w' st G).
  destruct (price_of w'); [|congruence].
  destruct (nav_of w'); [|congruence].
  reflexivity.
Qed.

Lemma no_sample_no_reset_witness :
  last_update (state_after (update_data (Inputs.spy_empty 1000000)
                                        Inputs.fresh)) = 0%Z /\
  updated (update_data (Inputs.both_ok 1100000)
             (state_after (update_data (Inputs.spy_empty 1000000)
                                       Inputs.fresh))) = true.
Proof.
  destruct (no_sample_no_reset (Inputs.spy_empty 1000000)
              (Inputs.both_ok 1100000) Inputs.fresh) as (L & _ & _ & R).
  - reflexivity.
  - split; [exact L|]. apply R.
    + reflexivity.
    + discriminate.
    + discriminate.
Defined.

(** ** The recent-history table *)

Lemma table_data_cons (s : Sample) (rest : list Sample) :
  map (fun sp => with_changes (fst sp) (snd sp))
      (combine (s :: rest) (shift_up (map spy_price (s :: rest))))
  = with_changes s (price_below (s :: rest) 0)
      :: map (fun sp => with_changes (fst sp) (snd sp))
             (combine rest (shift_up (map spy_price rest))).
Proof.
  destruct rest as [|s' rest]; reflexivity.
Qed.

(** Row [i] of the table is row [i] of the slice, with the price of row
    [i + 1] of the slice as its previous price. *)
Lemma lagged_nth (shown : list Sample) (i : nat) (cur : Sample) :
  nth_error shown i = Some cur ->
  nth_error (map (fun sp => with_changes (fst sp) (snd sp))
                 (combine shown (shift_up (map spy_price shown)))) i
  = Some (with_changes cur (price_below shown i)).
Proof.
  revert i. induction shown as [|s rest IH]; intros i H.
  - destruct i; discriminate.
  - rewrite table_data_cons. destruct i as [|i].
    + cbn in H. injection H as ->. reflexivity.
    + cbn [nth_error] in H |- *. rewrite (IH i H). reflexivity.
Qed.

Lemma table_data_nth (buffer : list Sample) (i : nat) (cur : Sample) :
  nth_error (shown_slice buffer) i = Some cur ->
  nth_error (table_data buffer) i
  = Some (with_changes cur (price_below (shown_slice buffer) i)).
Proof.
  apply lagged_nth.
Qed.

Lemma table_data_length (buffer : list Sample) :
  length (table_data buffer) = length (shown_slice buffer).
Proof.
  unfold table_data, shown_slice.
  set (shown := firstn table_rows (sort_newest_first buffer)).
  rewrite length_map, length_combine.
  destruct shown as [|s rest]; [reflexivity|].
  cbn [map shift_up]. rewrite length_app, length_map. cbn [length]. lia.
Qed.

Lemma insert_newest_first_length (s : Sample) (rows : list Sample) :
  length (insert_newest_first s rows) = S (length rows).
Proof.
  induction rows as [|r rows IH]; [reflexivity|].
  cbn [insert_newest_first].
  destruct (timestamp r <=? timestamp s)%Z; cbn [length]; congruence.
Qed.

Lemma sort_newest_first_length (rows : list Sample) :
  length (sort_newest_first rows) = length rows.
Proof.
  induction rows as [|r rows IH]; [reflexivity|].
  unfold sort_newest_first in *. cbn [fold_right length].
  rewrite insert_newest_first_length. f_equal. exact IH.
Qed.

Lemma shown_slice_length (buffer : list Sample) :
  length (shown_slice buffer) = Nat.min table_rows (length buffer).
Proof.
  unfold shown_slice. rewrite length_firstn, sort_newest_first_length.
  reflexivity.
Qed.

(** With a clock that moved forward between the rows, newest first is the
    buffer reversed. *)
Lemma insert_oldest (s : Sample) (rows : list Sample) :
  Forall (fun r => (timestamp s < timestamp r)%Z) rows ->
  insert_newest_first s rows = rows ++ [s].
Proof.
  induction 1 as [|r rows H F IH]; [reflexivity|].
  cbn [insert_newest_first].
  destruct (Z.leb_spec (timestamp r) (timestamp s)); [lia|].
  rewrite IH. reflexivity.
Qed.

Lemma sort_newest_first_rev (rows : list Sample) :
  StronglySorted (fun a b => (timestamp a < timestamp b)%Z) rows ->
  sort_newest_first rows = rev rows.
Proof.
  induction 1 as [|s rows S IH F]; [reflexivity|].
  unfold sort_newest_first in *. cbn [fold_right rev].
  rewrite IH. apply insert_oldest.
  rewrite Forall_forall in F |- *. intros r I. apply F, in_rev, I.
Qed.

(** NaN is absorbing: the computed columns of a row without a previous
    price are NaN whatever the row's own price is. *)
Module NaN.

Lemma literal : isNaN PrimFloat.nan.
Proof. reflexivity. Qed.

Lemma sub_r (x y : float) : isNaN y -> isNaN (PrimFloat.sub x y).
Proof.
  unfold isNaN. intros H. rewrite FloatAxioms.sub_spec, H.
  destruct (Prim2SF x); reflexivity.
Qed.

Lemma sub_l (x y : float) : isNaN x -> isNaN (PrimFloat.sub x y).
Proof.
  unfold isNaN. intros H. rewrite FloatAxioms.sub_spec, H. reflexivity.
Qed.

Lemma div_l (x y : float) : isNaN x -> isNaN (PrimFloat.div x y).
Proof.
  unfold isNaN. intros H. rewrite FloatAxioms.div_spec, H. reflexivity.
Qed.

Lemma mul_l (x y : float) : isNaN x -> isNaN (PrimFloat.mul x y).
Proof.
  unfold isNaN. intros H. rewrite FloatAxioms.mul_spec, H. reflexivity.
Qed.

Lemma null (x : float) : isNaN x -> PyNum.notnull x = false.
Proof.
  unfold isNaN, PyNum.notnull, PrimFloat.is_nan. intros H.
  rewrite FloatAxioms.eqb_spec, H. reflexivity.
Qed.

End NaN.

Lemma display_without_previous (s : Sample) :
  let row := display (with_changes s PrimFloat.nan) in
  col_previous_price row = "" /\ col_change row = "" /\
  col_change_pct row = "".
Proof.
  cbn [display with_changes row_sample prev_spy_price price_change
       price_change_pct col_previous_price col_change col_change_pct].
  unfold if_notnull.
  rewrite (NaN.null _ NaN.literal).
  rewrite (NaN.null _ (NaN.sub_r (spy_price s) _ NaN.literal)).
  rewrite (NaN.null _ (NaN.mul_l _ 100%float
                         (NaN.div_l _ PrimFloat.nan
                            (NaN.sub_r (spy_price s) _ NaN.literal)))).
  repeat split.
Qed.

Lemma display_one_dollar_up (s : Sample) :
  spy_price s = 501%float ->
  let row := display (with_changes s 500%float) in
  col_previous_price row = "$500.00" /\ col_change row = "$1.0000" /\
  col_change_pct row = "0.2000%".
Proof.
  intros P.
  cbn [display with_changes row_sample prev_spy_price price_change
       price_change_pct col_previous_price col_change col_change_pct].
  rewrite P. repeat split.
Qed.

(** ** The claims about the Presentation Layer *)

(** C7, as the code has it: in the table's data, a row of the displayed
    slice (the 15 newest rows, newest first) whose price is 501.0, above a
    row of that slice whose price is 500.0, has 500.0 as previous price, and
    the formatters of lines 264 to 266 give it the texts [$500.00],
    [$1.0000] and [0.2000%], the last without a plus sign.  The lag is taken
    inside the slice: its last row has no previous price, and its
    Previous Price, Change and Change % texts are empty, also when the
    buffer holds older rows. *)
Theorem change_pct_one_step_lag (buffer : list Sample) :
  (forall i cur older,
     nth_error (shown_slice buffer) i = Some cur ->
     nth_error (shown_slice buffer) (S i) = Some older ->
     spy_price older = 500%float ->
     spy_price cur = 501%float ->
     exists row,
       nth_error (table_data buffer) i = Some row /\
       row_sample row = cur /\
       prev_spy_price row = 500%float /\
       col_previous_price (display row) = "$500.00" /\
       col_change (display row) = "$1.0000" /\
       col_change_pct (display row) = "0.2000%") /\
  (forall last,
     nth_error (shown_slice buffer) (length (shown_slice buffer) - 1)
     = Some last ->
     exists row,
       nth_error (table_data buffer) (length (shown_slice buffer) - 1)
       = Some row /\
       row_sample row = last /\
       col_previous_price (display row) = "" /\
       col_change (display row) = "" /\
       col_change_pct (display row) = "").
Proof.
  split.
  - intros i cur older C O PO PC.
    rewrite (table_data_nth buffer i cur C).
    unfold price_below. rewrite O, PO.
    eexists. split; [reflexivity|].
    split; [reflexivity|]. split; [reflexivity|].
    apply (display_one_dollar_up cur PC).
  - intros last L.
    rewrite (table_data_nth buffer _ last L).
    unfold price_below.
    replace (nth_error (shown_slice buffer)
               (S (length (shown_slice buffer) - 1))) with (@None Sample).
    + eexists. split; [reflexivity|].
      split; [reflexivity|].
      apply (display_without_previous last).
    + symmetry. apply nth_error_None. lia.
Qed.

Lemma change_pct_one_step_lag_witness :
  (exists row,
     nth_error (table_data Inputs.two_prices) 0 = Some row /\
     row_sample row = Inputs.sample_at 1000000 501%float /\
     prev_spy_price row = 500%float /\
     col_previous_price (display row) = "$500.00" /\
     col_change (display row) = "$1.0000" /\
     col_change_pct (display row) = "0.2000%") /\
  (exists row,
     nth_error (table_data Inputs.two_prices) 1 = Some row /\
     row_sample row = Inputs.sample_at 0 500%float /\
     col_previous_price (display row) = "" /\
     col_change (display row) = "" /\
     col_change_pct (display row) = "").
Proof.
  split.
  - apply (proj1 (change_pct_one_step_lag Inputs.two_prices) 0
             (Inputs.sample_at 1000000 501%float)
             (Inputs.sample_at 0 500%float)); reflexivity.
  - apply (proj2 (change_pct_one_step_lag Inputs.two_prices)
             (Inputs.sample_at 0 500%float)); reflexivity.
Defined.

(** C7, as the claim words it, fails: with the prices 500.0 then 501.0 in
    the buffer, the row of 501.0 has previous price 500.0 and the text of
    its change-percent cell is not [+0.2000%]. *)
Lemma change_pct_plus_sign_refuted :
  ~ (forall row,
       In row (table_data Inputs.two_prices) ->
       spy_price (row_sample row) = 501%float ->
       prev_spy_price row = 500%float ->
       col_change_pct (display row) = "+0.2000%").
Proof.
  intros H.
  specialize (H (with_changes (Inputs.sample_at 1000000 501%float)
                              500%float)).
  assert (col_change_pct
            (display (with_changes (Inputs.sample_at 1000000 501%float)
                                   500%float)) = "0.2000%") as E
      by reflexivity.
  rewrite H in E.
  - discriminate E.
  - left. reflexivity.
  - reflexivity.
  - reflexivity.
Qed.

(** ** The claims that the cells decide *)

Lemma labelled_difference (p n : float) :
  exists a b,
    difference_cell (Labelled [("SPY", p)]) (Labelled [("^GSPC", n)])
    = Labelled [("SPY", a); ("^GSPC", b)] /\
    isNaN a /\ isNaN b.
Proof.
  eexists. eexists. split; [reflexivity|].
  split; [apply NaN.sub_r, NaN.literal|apply NaN.sub_l, NaN.literal].
Qed.

(** C2, at the input where the code departs from it: when the downloads
    have their columns labelled by ticker, the price cell is a Series
    labelled [SPY] and the NAV cell one labelled [^GSPC]; line 91 aligns
    the two on the union of their labels, and the difference it records
    holds NaN under both, whatever the price and the index value: for a
    price of 501.0, an index of 5000.0 and no noise it is not 1.0.  With
    flat columns the same line gives the binary64 difference. *)
Theorem difference_of_labelled_cells :
  (forall price index_close noise,
     exists a b,
       difference_cell (price_cell TickerColumns price)
                       (nav_cell TickerColumns index_close noise)
       = Labelled [("SPY", a); ("^GSPC", b)] /\
       isNaN a /\ isNaN b) /\
  difference_cell (price_cell TickerColumns 501%float)
                  (nav_cell TickerColumns 5000%float 0%float)
  = Labelled [("SPY", PrimFloat.nan); ("^GSPC", PrimFloat.nan)] /\
  (forall price index_close noise,
     difference_cell (price_cell FlatColumns price)
                     (nav_cell FlatColumns index_close noise)
     = Scalar (PrimFloat.sub price
                 (PrimFloat.mul (PrimFloat.mul index_close nav_scaling_factor)
                                (PrimFloat.add 1%float noise)))).
Proof.
  split; [|split; [reflexivity|reflexivity]].
  intros price index_close noise. apply labelled_difference.
Qed.

Lemma st_metrics_flat (s : Sample) :
  st_metrics (cells_of FlatColumns s) = ([], inl (raise_at AttributeError 152)).
Proof.
  reflexivity.
Qed.

Lemma st_metrics_labelled (s : Sample) :
  snd (st_metrics (cells_of TickerColumns s)) = inr tt.
Proof.
  reflexivity.
Qed.

Lemma st_table_labelled (buffer : list Sample) :
  2 <= length buffer ->
  st_table TickerColumns buffer = ([], inl (raise_at TypeError 263)).
Proof.
  intros L. unfold st_table.
  destruct (Nat.ltb_spec 1 (length buffer)) as [_|H]; [|lia].
  pose proof (shown_slice_length buffer) as N. unfold shown_slice in N.
  destruct (firstn table_rows (sort_newest_first buffer)) as [|s rest].
  - cbn [length] in N. unfold table_rows in N. lia.
  - reflexivity.
Qed.

(** C10, at the input where the code departs from it: with two rows or
    more in the buffer the page never gets to show the table, in either
    layout of the downloads and whatever plotly does.  With flat columns
    the very first metric raises (a float has no [to_numpy]) and nothing is
    shown, and that as soon as the buffer holds one row; with columns
    labelled by ticker the metrics pass and, from two rows on, the first
    price cell of the table raises (a Series takes no format
    specification). *)
Theorem page_never_shows_the_table :
  (forall layout plot buffer,
     2 <= length buffer ->
     exists r, stopped (page_until_caption layout plot buffer) = Some r) /\
  (forall plot buffer,
     1 <= length buffer ->
     page_until_caption FlatColumns plot buffer
     = ([], inl (raise_at AttributeError 152))) /\
  (forall buffer,
     2 <= length buffer ->
     stopped (page_until_caption TickerColumns None buffer)
     = Some (raise_at TypeError 263)).
Proof.
  assert (forall buffer : list Sample, 1 <= length buffer ->
            exists latest older, rev buffer = latest :: older) as Last.
  { intros buffer L. destruct (rev buffer) as [|latest older] eqn:E.
    - apply (f_equal (@length Sample)) in E. rewrite length_rev in E.
      cbn in E. lia.
    - exists latest, older. reflexivity. }
  assert (forall plot buffer, 1 <= length buffer ->
            page_until_caption FlatColumns plot buffer
            = ([], inl (raise_at AttributeError 152))) as Flat.
  { intros plot buffer L. unfold page_until_caption.
    destruct (Last buffer L) as (latest & older & ->). reflexivity. }
  assert (forall plot buffer, 2 <= length buffer ->
            stopped (page_until_caption TickerColumns plot buffer)
            = match plot with
              | Some e => Some (raise_at e 244)
              | None => Some (raise_at TypeError 263)
              end) as Ticker.
  { intros plot buffer L. unfold page_until_caption.
    destruct (Last buffer ltac:(lia)) as (latest & older & ->).
    unfold page_bind at 1. rewrite st_metrics_labelled.
    destruct plot as [e|]; [reflexivity|].
    rewrite (st_table_labelled buffer L). reflexivity. }
  split; [|split].
  - intros layout plot buffer L. destruct layout.
    + rewrite (Flat plot buffer ltac:(lia)). eexists. reflexivity.
    + rewrite (Ticker plot buffer L). destruct plot; eexists; reflexivity.
  - exact Flat.
  - intros buffer L. apply (Ticker None buffer L).
Qed.

Lemma page_never_shows_the_table_witness :
  page_until_caption FlatColumns None [Inputs.sample_at 0 500%float]
  = ([], inl (raise_at AttributeError 152)) /\
  stopped (page_until_caption TickerColumns None Inputs.two_prices)
  = Some (raise_at TypeError 263).
Proof.
  split.
  - apply (proj1 (proj2 page_never_shows_the_table)). simpl. lia.
  - apply (proj2 (proj2 page_never_shows_the_table)). simpl. lia.
Defined.

(** * Further properties *)

(** ** Binary64 arithmetic of the elapsed time *)

Module Binary64.

Local Open Scope Z_scope.

Lemma digits2_pos_bounds (p : positive) :
  2 ^ Zpos (digits2_pos p) <= 2 * Zpos p < 2 * 2 ^ Zpos (digits2_pos p).
Proof.
  induction p as [p IH|p IH|]; cbn [digits2_pos].
  - rewrite Pos2Z.inj_succ, Z.pow_succ_r by lia. lia.
  - rewrite Pos2Z.inj_succ, Z.pow_succ_r by lia. lia.
  - cbn. lia.
Qed.

Lemma digits_of_big (m : Z) : 2 ^ 52 <= m -> 53 <= Zdigits2 m.
Proof.
  intros H. destruct m as [|p|p]; try (cbn in H; lia).
  cbn [Zdigits2]. pose proof (digits2_pos_bounds p) as B.
  destruct (Z_lt_le_dec (Zpos (digits2_pos p)) 53) as [L|L]; [|exact L].
  exfalso.
  assert (2 ^ Zpos (digits2_pos p) <= 2 ^ 52) by (apply Z.pow_le_mono_r; lia).
  lia.
Qed.

Lemma shr_1_m (r : shr_record) :
  0 <= shr_m r -> shr_m (shr_1 r) = Z.div2 (shr_m r).
Proof.
  destruct r as [m rb sb]. cbn [shr_m].
  destruct m as [|p|p]; [reflexivity|destruct p; reflexivity|lia].
Qed.

Lemma iter_shr_m (p : positive) :
  forall r, 0 <= shr_m r ->
    shr_m (iter_pos shr_1 p r) = shr_m r / 2 ^ Zpos p.
Proof.
  assert (forall r, 0 <= shr_m r -> 0 <= shr_m (shr_1 r)
                    /\ shr_m (shr_1 r) = shr_m r / 2) as S1.
  { intros r H. rewrite shr_1_m, Z.div2_div by exact H. split; [|reflexivity].
    apply Z.div_pos; lia. }
  assert (0 < 2 ^ Zpos p) as P by (apply Z.pow_pos_nonneg; lia).
  induction p as [p IH|p IH|]; intros r H; cbn [iter_pos].
  - assert (0 < 2 ^ Zpos p) as Q by (apply Z.pow_pos_nonneg; lia).
    destruct (S1 r H) as [H1 E1].
    assert (0 <= shr_m (iter_pos shr_1 p (shr_1 r))) as H2.
    { rewrite (IH Q) by exact H1. apply Z.div_pos; lia. }
    rewrite (IH Q) by exact H2. rewrite (IH Q) by exact H1. rewrite E1.
    rewrite !Z.div_div by lia.
    f_equal. rewrite (Pos2Z.inj_xI p).
    replace (2 * Zpos p + 1) with (Zpos p + Zpos p + 1) by lia.
    rewrite !Z.pow_add_r by lia. change (2 ^ 1) with 2. lia.
  - assert (0 < 2 ^ Zpos p) as Q by (apply Z.pow_pos_nonneg; lia).
    assert (0 <= shr_m (iter_pos shr_1 p r)) as H2.
    { rewrite (IH Q) by exact H. apply Z.div_pos; lia. }
    rewrite (IH Q) by exact H2. rewrite (IH Q) by exact H.
    rewrite Z.div_div by lia.
    f_equal. rewrite (Pos2Z.inj_xO p).
    replace (2 * Zpos p) with (Zpos p + Zpos p) by lia.
    rewrite Z.pow_add_r by lia. reflexivity.
  - destruct (S1 r H) as [_ E1]. rewrite E1. reflexivity.
Qed.


(** Shifting a mantissa of at least 53 bits down to 53 bits. *)
Lemma shr_fexp_big (m e : Z) (l : location) :
  2 ^ 52 <= m -> -1074 <= e ->
  exists r n,
    shr_fexp prec emax m e l = (r, e + n) /\ 0 <= n /\
    n = Zdigits2 m - 53 /\ 2 ^ 52 <= shr_m r.
Proof.
  intros M E. pose proof (digits_of_big m M) as D.
  unfold shr_fexp, fexp, emin, prec, emax.
  replace (Z.max (Zdigits2 m + e - 53) (3 - 1024 - 53) - e)
    with (Zdigits2 m - 53) by lia.
  assert (shr_m (shr_record_of_loc m l) = m) as R
      by (destruct l as [|[ | | ]]; reflexivity).
  destruct (Zdigits2 m - 53) as [|n|n] eqn:N; try lia.
  - exists (shr_record_of_loc m l), 0. cbn [shr]. rewrite R.
    repeat split; try lia. f_equal. lia.
  - exists (iter_pos shr_1 n (shr_record_of_loc m l)), (Zpos n).
    cbn [shr]. repeat split; try lia.
    rewrite iter_shr_m by (rewrite R; lia). rewrite R.
    destruct m as [|p|p]; try (cbn in M; lia).
    cbn [Zdigits2] in N. pose proof (digits2_pos_bounds p) as B.
    apply Z.div_le_lower_bound; [apply Z.pow_pos_nonneg; lia|].
    rewrite <- Z.pow_add_r by lia.
    replace (Zpos n + 52) with (Zpos (digits2_pos p) - 1) by lia.
    assert (2 ^ Zpos (digits2_pos p) = 2 * 2 ^ (Zpos (digits2_pos p) - 1)) as P.
    { rewrite <- Z.pow_succ_r by lia. f_equal. lia. }
    lia.
Qed.

Lemma round_nearest_even_bounds (m : Z) (l : location) :
  m <= round_nearest_even m l <= m + 1.
Proof.
  destruct l as [|[ | | ]]; cbn [round_nearest_even];
    try destruct (Z.even m); lia.
Qed.

(** Rounding a mantissa of at least 53 bits gives a float of the same sign
    that is not zero, with an exponent that is not smaller. *)
Lemma binary_round_aux_big (s : bool) (m e : Z) (l : location) :
  2 ^ 52 <= m -> -1074 <= e ->
  at_least s (e + (Zdigits2 m - 53)) (binary_round_aux prec emax s m e l).
Proof.
  intros M E. unfold binary_round_aux.
  destruct (shr_fexp_big m e l M E) as (r1 & n1 & -> & N1 & D1 & M1).
  pose proof (round_nearest_even_bounds (shr_m r1) (loc_of_shr_record r1)) as B.
  destruct (shr_fexp_big (round_nearest_even (shr_m r1) (loc_of_shr_record r1))
              (e + n1) loc_Exact) as (r2 & n2 & -> & N2 & _ & M2); try lia.
  destruct (shr_m r2) as [|p|p]; try (cbn in M2; lia).
  destruct (e + n1 + n2 <=? emax - prec).
  - right. exists p, (e + n1 + n2). split; [reflexivity|lia].
  - left. reflexivity.
Qed.


Lemma iter_xO (p k : positive) : Zpos (Pos.iter xO p k) = Zpos p * 2 ^ Zpos k.
Proof.
  induction k as [|k IH] using Pos.peano_ind.
  - cbn. lia.
  - rewrite Pos.iter_succ, Pos2Z.inj_xO, IH, Pos2Z.inj_succ, Z.pow_succ_r
      by lia.
    lia.
Qed.

(** [float(d)] for a positive Python int below [2^63]. *)
Lemma of_uint63_big (d : Z) :
  1 <= d < 2 ^ 63 ->
  at_least false (Zdigits2 d - 53) (Prim2SF (of_uint63 (Uint63.of_Z d))).
Proof.
  intros R. rewrite of_uint63_spec, Uint63.of_Z_spec.
  change wB with (2 ^ 63). rewrite Z.mod_small by lia.
  destruct d as [|p|p]; try lia.
  cbn [binary_normalize Zdigits2]. unfold binary_round, shl_align.
  pose proof (digits2_pos_bounds p) as B.
  assert (0 < Zpos (digits2_pos p)) as P by lia.
  unfold fexp at 1. unfold emin, prec, emax.
  replace (Z.max (Zpos (digits2_pos p) + 0 - 53) (3 - 1024 - 53) - 0)
    with (Zpos (digits2_pos p) - 53) by lia.
  destruct (Zpos (digits2_pos p) - 53) as [|k|k] eqn:K.
  - pose proof (binary_round_aux_big false (Zpos p) 0 loc_Exact) as A.
    cbn [Zdigits2] in A. rewrite K in A. apply A; [|lia].
    replace (Zpos (digits2_pos p)) with 53 in B by lia.
    change (2 ^ 53) with (2 * 2 ^ 52) in B. lia.
  - pose proof (binary_round_aux_big false (Zpos p) 0 loc_Exact) as A.
    cbn [Zdigits2] in A. rewrite K in A. apply A; [|lia].
    assert (2 ^ 53 <= 2 ^ Zpos (digits2_pos p))
      by (apply Z.pow_le_mono_r; lia).
    change (2 ^ 53) with (2 * 2 ^ 52) in *. lia.
  - assert (2 ^ 52 <= Zpos (Pos.iter xO p k)) as M.
    { rewrite iter_xO.
      assert (2 ^ Zpos (digits2_pos p) * 2 ^ Zpos k = 2 ^ 53) as Q.
      { rewrite <- Z.pow_add_r by lia. f_equal. lia. }
      change (2 ^ 53) with (2 * 2 ^ 52) in Q. nia. }
    pose proof (binary_round_aux_big false (Zpos (Pos.iter xO p k))
                  (Z.max (Zpos (digits2_pos p) + 0 - 53) (3 - 1024 - 53))
                  loc_Exact M) as A.
    pose proof (digits_of_big _ M) as D.
    destruct A as [A|(m' & e' & A & L)]; [lia|left; exact A|].
    right. exists m', e'. split; [exact A|lia].
Qed.


(** A finite float of exponent above the subnormal range has 53 bits. *)
Lemma valid_normal (s : bool) (m : positive) (e : Z) :
  valid_binary (S754_finite s m e) = true -> -1074 < e ->
  2 ^ 52 <= Zpos m < 2 ^ 53.
Proof.
  cbn [SpecFloat.valid_binary]. unfold bounded, canonical_mantissa.
  intros V E. apply andb_prop in V. destruct V as [V _].
  apply Z.eqb_eq in V. unfold fexp, emin, prec, emax in V.
  assert (Zpos (digits2_pos m) = 53) as D by lia.
  pose proof (digits2_pos_bounds m) as B. rewrite D in B.
  change (2 ^ 53) with (2 * 2 ^ 52) in *. lia.
Qed.


(** Dividing a float of magnitude at least one by 10^6. *)
Lemma div_million_big (s : bool) (e0 : Z) (x : spec_float) :
  valid_binary x = true -> -1054 <= e0 ->
  at_least s e0 x ->
  at_least s (e0 - 20) (SFdiv prec emax x million).
Proof.
  intros V E [->|(m & e & -> & L)].
  - left. destruct s; reflexivity.
  - pose proof (valid_normal s m e V ltac:(lia)) as M.
    assert (Zpos (digits2_pos m) = 53) as D.
    { revert V. cbn [SpecFloat.valid_binary].
      unfold bounded, canonical_mantissa, fexp, emin, prec, emax.
      intros V. apply andb_prop in V. destruct V as [V _].
      apply Z.eqb_eq in V. lia. }
    unfold million. cbn [SFdiv]. unfold SFdiv_core_binary.
    cbn [Zdigits2]. rewrite D.
    change (Zpos (digits2_pos 8589934592000000)) with 53.
    unfold fexp, emin, prec, emax.
    replace (Z.min (Z.max (53 + e - (53 + -33) - 53) (3 - 1024 - 53))
                   (e - -33)) with (e - 20) by lia.
    replace (e - -33 - (e - 20)) with 53 by lia.
    rewrite Z.shiftl_mul_pow2 by lia.
    pose proof (Z_div_mod (Zpos m * 2 ^ 53) 8589934592000000 eq_refl) as Q.
    destruct (Z.div_eucl (Zpos m * 2 ^ 53) 8589934592000000) as [q r].
    assert (2 ^ 52 <= q) as Bq.
    { change (2 ^ 53) with 9007199254740992 in *.
      change (2 ^ 52) with 4503599627370496 in *. nia. }
    replace (xorb s false) with s by (destruct s; reflexivity).
    pose proof (binary_round_aux_big s q (e - 20)
                  (new_location 8589934592000000 r) Bq ltac:(lia)) as A.
    pose proof (digits_of_big q Bq) as Dq.
    destruct A as [A|(m' & e' & A & L')]; [left; exact A|].
    right. exists m', e'. split; [exact A|lia].
Qed.


Lemma at_least_weaken (s : bool) (e0 e1 : Z) (r : spec_float) :
  e1 <= e0 -> at_least s e0 r -> at_least s e1 r.
Proof.
  intros L [->|(m & e & -> & H)]; [left; reflexivity|].
  right. exists m, e. split; [reflexivity|lia].
Qed.

Lemma at_least_opp (e0 : Z) (r : spec_float) :
  at_least false e0 r -> at_least true e0 (SFopp r).
Proof.
  intros [->|(m & e & -> & H)]; [left; reflexivity|].
  right. exists m, e. split; [reflexivity|exact H].
Qed.


Lemma compare_positive (r : spec_float) :
  valid_binary r = true -> at_least false (-52) r ->
  SFltb r nine_tenths = false /\ SFleb one r = true.
Proof.
  intros V [->|(m & e & -> & H)]; [split; reflexivity|].
  pose proof (valid_normal false m e V ltac:(lia)) as [M _].
  unfold SFltb, SFleb, nine_tenths, one. cbn [SFcompare]. split.
  - destruct (Z.compare_spec e (-53)); [exfalso; lia|exfalso; lia|].
    reflexivity.
  - destruct (Z.compare_spec (-52) e); try reflexivity; [|lia].
    change (Pos.compare_cont Eq 4503599627370496 m)
      with (4503599627370496 ?= m)%positive.
    destruct (Pos.compare_spec 4503599627370496 m) as [E|L|L];
      try reflexivity.
    apply Pos2Z.pos_lt_pos in L. change (2 ^ 52) with 4503599627370496 in M.
    exfalso. apply (Z.lt_irrefl (Zpos m)).
    apply (Z.lt_le_trans _ _ _ L M).
Qed.

Lemma compare_negative (e0 : Z) (r : spec_float) :
  at_least true e0 r ->
  SFltb r nine_tenths = true /\ SFleb one r = false.
Proof.
  intros [->|(m & e & -> & H)]; split; reflexivity.
Qed.

Lemma agree_on_block_sound (k : nat) :
  forall lo, to_Z lo + 2 ^ Z.of_nat k <= 2 ^ 62 ->
    agree_on_block k lo = true ->
    forall d, to_Z lo <= d < to_Z lo + 2 ^ Z.of_nat k ->
      thresholds_agree (Uint63.of_Z d) = true.
Proof.
  induction k as [|k IH]; intros lo B H d R.
  - change (2 ^ Z.of_nat 0) with 1 in R. replace d with (to_Z lo) by lia.
    rewrite Uint63.of_to_Z. exact H.
  - cbn [agree_on_block] in H. apply andb_prop in H. destruct H as [H1 H2].
    rewrite Nat2Z.inj_succ, Z.pow_succ_r in B, R by lia.
    assert (0 < 2 ^ Z.of_nat k) as P by (apply Z.pow_pos_nonneg; lia).
    pose proof (Uint63.to_Z_bounded lo) as L.
    assert (to_Z (lo + Uint63.of_Z (2 ^ Z.of_nat k))
            = to_Z lo + 2 ^ Z.of_nat k) as E.
    { rewrite Uint63.add_spec, Uint63.of_Z_spec.
      change wB with (2 ^ 63) in *.
      change (2 ^ 62) with 4611686018427387904 in *.
      change (2 ^ 63) with 9223372036854775808 in *.
      rewrite (Z.mod_small (2 ^ Z.of_nat k)) by lia.
      apply Z.mod_small. lia. }
    destruct (Z_lt_le_dec d (to_Z lo + 2 ^ Z.of_nat k)).
    + apply (IH lo); [lia|exact H1|lia].
    + apply (IH (lo + Uint63.of_Z (2 ^ Z.of_nat k))%uint63);
        [rewrite E; lia|exact H2|rewrite E; lia].
Qed.

Lemma thresholds_agree_small (d : Z) :
  0 <= d < 2 ^ 20 -> thresholds_agree (Uint63.of_Z d) = true.
Proof.
  apply (agree_on_block_sound 20 0%uint63).
  - vm_compute. discriminate.
  - vm_compute. reflexivity.
Qed.


Lemma digits_lower (d k : Z) : 0 <= k -> 2 ^ k <= d -> k + 1 <= Zdigits2 d.
Proof.
  intros K H.
  assert (0 < 2 ^ k) as P by (apply Z.pow_pos_nonneg; lia).
  destruct d as [|p|p]; try lia.
  cbn [Zdigits2]. pose proof (digits2_pos_bounds p) as B.
  destruct (Z_lt_le_dec (Zpos (digits2_pos p)) (k + 1)) as [L|L]; [|exact L].
  exfalso.
  assert (2 ^ Zpos (digits2_pos p) <= 2 ^ k) by (apply Z.pow_le_mono_r; lia).
  lia.
Qed.

(** The seconds of a timedelta of [d] microseconds, in IEEE terms. *)
Lemma total_seconds_spec (d : Z) :
  Prim2SF (total_seconds d)
  = SFdiv prec emax (Prim2SF (PyNum.float_of_int d)) million.
Proof.
  unfold total_seconds. rewrite FloatAxioms.div_spec. reflexivity.
Qed.

Lemma total_seconds_positive (d : Z) :
  2 ^ 20 <= d < 2 ^ 63 ->
  at_least false (-52) (Prim2SF (total_seconds d)).
Proof.
  intros R. rewrite total_seconds_spec.
  pose proof (Prim2SF_valid (PyNum.float_of_int d)) as V.
  unfold PyNum.float_of_int in *.
  destruct (Z.ltb_spec d 0) as [N|_]; [lia|].
  apply (div_million_big false (-32) _ V); [lia|].
  apply (at_least_weaken false (Zdigits2 d - 53)).
  - pose proof (digits_lower d 20 ltac:(lia) ltac:(lia)). lia.
  - apply of_uint63_big. lia.
Qed.

Lemma total_seconds_negative (d : Z) :
  - 2 ^ 63 < d < 0 ->
  at_least true (-72) (Prim2SF (total_seconds d)).
Proof.
  intros R. rewrite total_seconds_spec.
  pose proof (Prim2SF_valid (PyNum.float_of_int d)) as V.
  unfold PyNum.float_of_int in *.
  destruct (Z.ltb_spec d 0) as [_|N]; [|lia].
  rewrite FloatAxioms.opp_spec in *.
  apply (div_million_big true (-52) _ V); [lia|].
  apply at_least_opp.
  apply (at_least_weaken false (Zdigits2 (- d) - 53)).
  - pose proof (digits_lower (- d) 0 ltac:(lia) ltac:(cbn; lia)). lia.
  - apply of_uint63_big. lia.
Qed.

(** The two tests the script makes on elapsed time, in microseconds. *)
Theorem total_seconds_thresholds (d : Z) :
  - 2 ^ 63 < d < 2 ^ 63 ->
  PrimFloat.ltb (total_seconds d) 0.9%float = (d <? 900000) /\
  PrimFloat.leb 1%float (total_seconds d) = (1000000 <=? d).
Proof.
  intros R.
  destruct (Z_lt_le_dec d 0) as [N|N]; [|destruct (Z_lt_le_dec d (2 ^ 20)) as [S|B]].
  - rewrite FloatAxioms.ltb_spec, FloatAxioms.leb_spec.
    change (Prim2SF 0.9%float) with nine_tenths.
    change (Prim2SF 1%float) with one.
    destruct (compare_negative _ _ (total_seconds_negative d ltac:(lia)))
      as [-> ->].
    destruct (Z.ltb_spec d 900000); [|lia].
    destruct (Z.leb_spec 1000000 d); [lia|]. split; reflexivity.
  - pose proof (thresholds_agree_small d ltac:(lia)) as A.
    unfold thresholds_agree in A. apply andb_prop in A.
    destruct A as [A1 A2]. apply Bool.eqb_prop in A1, A2.
    assert (to_Z (Uint63.of_Z d) = d) as E.
    { rewrite Uint63.of_Z_spec. change wB with (2 ^ 63).
      apply Z.mod_small. lia. }
    unfold total_seconds.
    change (PyNum.float_of_int 1000000) with (of_uint63 1000000).
    unfold PyNum.float_of_int.
    destruct (Z.ltb_spec d 0) as [?|_]; [lia|].
    rewrite A1, A2. split.
    + destruct (Z.ltb_spec d 900000) as [L|L].
      * apply Uint63.ltb_spec. rewrite E. exact L.
      * destruct (Uint63.ltb (Uint63.of_Z d) 900000) eqn:C; [|reflexivity].
        apply Uint63.ltb_spec in C. rewrite E in C.
        change (to_Z 900000) with 900000 in C. lia.
    + destruct (Z.leb_spec 1000000 d) as [L|L].
      * apply Uint63.leb_spec. rewrite E. exact L.
      * destruct (Uint63.leb 1000000 (Uint63.of_Z d)) eqn:C; [|reflexivity].
        apply Uint63.leb_spec in C. rewrite E in C.
        change (to_Z 1000000) with 1000000 in C. lia.
  - rewrite FloatAxioms.ltb_spec, FloatAxioms.leb_spec.
    change (Prim2SF 0.9%float) with nine_tenths.
    change (Prim2SF 1%float) with one.
    pose proof (Prim2SF_valid (total_seconds d)) as V.
    destruct (compare_positive _ V (total_seconds_positive d ltac:(lia)))
      as [-> ->].
    change (2 ^ 20) with 1048576 in B.
    destruct (Z.ltb_spec d 900000); [lia|].
    destruct (Z.leb_spec 1000000 d); [|lia]. split; reflexivity.
Qed.

End Binary64.

(** ** The debounce and the rerun tests, in microseconds *)

Lemma debounced_threshold (w : world) (st : session_state) :
  timedelta_ok (now w - last_update st) ->
  debounced w st = (now w - last_update st <? 900000)%Z.
Proof.
  intros R. apply (proj1 (Binary64.total_seconds_thresholds _ R)).
Qed.

Lemma datetime_difference (a b : datetime) :
  (- two_minutes <= a <= datetime_max)%Z ->
  (- two_minutes <= b <= datetime_max)%Z ->
  timedelta_ok (a - b).
Proof.
  unfold timedelta_ok, two_minutes, datetime_max.
  change (2 ^ 63)%Z with 9223372036854775808%Z. lia.
Qed.

(** What [update_data] calls outside once it is past the debounce test. *)
Lemma attempt_trace (w : world) (st : session_state) :
  debounced w st = false ->
  filter is_download (trace (update_data w st))
  = [YfDownload "SPY"; YfDownload "^GSPC"] /\
  length (filter is_error (trace (update_data w st))) = failures w /\
  length (filter is_noise (trace (update_data w st))) = 1 - failed (nav_of w).
Proof.
  intros G. rewrite (update_data_attempt w st G).
  unfold trace at 1 3 5. cbn [snd].
  unfold failures, price_of, nav_of, fetch_spy_price, calculate_approx_nav.
  destruct (spy_download w) as [e|[|c close]];
    destruct (gspc_download w) as [e'|[|c' close']]; repeat split.
Qed.

Lemma attempt_outcome (w : world) (st : session_state) :
  debounced w st = false ->
  (updated (update_data w st) = true <-> failures w = 0).
Proof.
  intros G. rewrite (update_data_attempt w st G).
  unfold updated, value, failures. cbn [fst].
  destruct (price_of w), (nav_of w); cbn; split; congruence.
Qed.

(** An execution at least 0.9 s after [last_update] makes both downloads
    and records a row exactly when both answered. *)
Lemma due_tick (w : world) (st : session_state) :
  (- two_minutes <= now w <= datetime_max)%Z ->
  (- two_minutes <= last_update st <= datetime_max)%Z ->
  (900000 <= now w - last_update st)%Z ->
  debounced w st = false.
Proof.
  intros N L H.
  rewrite (debounced_threshold w st (datetime_difference _ _ N L)).
  apply Z.ltb_ge, H.
Qed.

(** X1: the debounce test of [update_data] is a test on whole
    microseconds.  Less than 900000 microseconds after [last_update] the
    function returns [False] at once, with the session state untouched and no
    call made; from 900000 microseconds on it makes both downloads, and it
    returns [True] exactly when neither upstream call failed. *)
Theorem debounce_threshold (w : world) (st : session_state) :
  timedelta_ok (now w - last_update st) ->
  ((now w - last_update st < 900000)%Z ->
   update_data w st = (false, st, [])) /\
  ((900000 <= now w - last_update st)%Z ->
   filter is_download (trace (update_data w st))
   = [YfDownload "SPY"; YfDownload "^GSPC"] /\
   (updated (update_data w st) = true <-> failures w = 0)).
Proof.
  intros R. pose proof (debounced_threshold w st R) as D. split; intros H.
  - apply update_data_debounced. rewrite D. apply Z.ltb_lt, H.
  - assert (debounced w st = false) as G
        by (rewrite D; apply Z.ltb_ge, H).
    split; [apply (attempt_trace w st G)|apply (attempt_outcome w st G)].
Qed.

Lemma debounce_threshold_witness :
  update_data (Inputs.both_ok 899999) Inputs.fresh = (false, Inputs.fresh, [])
  /\ updated (update_data (Inputs.both_ok 900000) Inputs.fresh) = true.
Proof.
  split.
  - apply (proj1 (debounce_threshold (Inputs.both_ok 899999) Inputs.fresh
                    ltac:(vm_compute; split; reflexivity))).
    reflexivity.
  - apply (proj2 (debounce_threshold (Inputs.both_ok 900000) Inputs.fresh
                    ltac:(vm_compute; split; reflexivity))).
    + discriminate.
    + reflexivity.
Defined.

(** X2: once past the debounce test, [update_data] downloads SPY and then
    ^GSPC, once each, whether or not the first call failed; it shows one
    error message per failed call; and it draws the noise exactly when the
    index download answered, also when the price is missing and the NAV is
    thrown away. *)
Theorem upstream_calls_of_a_tick (w : world) (st : session_state) :
  debounced w st = false ->
  filter is_download (trace (update_data w st))
  = [YfDownload "SPY"; YfDownload "^GSPC"] /\
  length (filter is_error (trace (update_data w st))) = failures w /\
  length (filter is_noise (trace (update_data w st))) = 1 - failed (nav_of w).
Proof.
  apply attempt_trace.
Qed.

Lemma upstream_calls_of_a_tick_witness :
  length (filter is_error
            (trace (update_data (Inputs.spy_empty 1000000) Inputs.fresh))) = 1
  /\ length (filter is_noise
               (trace (update_data (Inputs.spy_empty 1000000) Inputs.fresh)))
     = 1.
Proof.
  destruct (upstream_calls_of_a_tick (Inputs.spy_empty 1000000) Inputs.fresh)
    as (_ & E & N).
  - reflexivity.
  - split; [exact E|exact N].
Defined.

(** X3: the session starts with [last_update] two minutes in the past, so
    the first execution of [update_data], at any clock reading not before
    the session's start, is not debounced: it makes both downloads and
    records the first row exactly when both answered. *)
Theorem first_tick_fetches (t0 : datetime) (w : world) :
  datetime_ok t0 -> datetime_ok (now w) -> (t0 <= now w)%Z ->
  filter is_download (trace (update_data w (initial_state t0)))
  = [YfDownload "SPY"; YfDownload "^GSPC"] /\
  (updated (update_data w (initial_state t0)) = true <-> failures w = 0).
Proof.
  intros T N L.
  assert (debounced w (initial_state t0) = false) as G.
  { apply due_tick; cbn [initial_state last_update];
      unfold datetime_ok, two_minutes in *; lia. }
  split; [apply (attempt_trace _ _ G)|apply (attempt_outcome _ _ G)].
Qed.

Lemma first_tick_fetches_witness :
  updated (update_data (Inputs.both_ok 5) (initial_state 5)) = true.
Proof.
  apply (proj2 (first_tick_fetches 5 (Inputs.both_ok 5)
                  ltac:(unfold datetime_ok, datetime_max; simpl; lia)
                  ltac:(unfold datetime_ok, datetime_max; simpl; lia)
                  ltac:(simpl; lia))).
  reflexivity.
Defined.

(** X4: the "Force Refresh Data" button keeps the buffer and moves
    [last_update] two minutes before the press, so that the next execution
    of [update_data], at any clock reading not before the press, is not
    debounced, however recent the last recorded row is. *)
Theorem force_refresh_fetches (t : datetime) (w : world) (st : session_state) :
  datetime_ok t -> datetime_ok (now w) -> (t <= now w)%Z ->
  data (force_refresh t st) = data st /\
  filter is_download (trace (update_data w (force_refresh t st)))
  = [YfDownload "SPY"; YfDownload "^GSPC"] /\
  (updated (update_data w (force_refresh t st)) = true <-> failures w = 0).
Proof.
  intros T N L. split; [reflexivity|].
  assert (debounced w (force_refresh t st) = false) as G.
  { apply due_tick; cbn [force_refresh last_update];
      unfold datetime_ok, two_minutes in *; lia. }
  split; [apply (attempt_trace _ _ G)|apply (attempt_outcome _ _ G)].
Qed.

Lemma force_refresh_fetches_witness :
  updated (update_data (Inputs.both_ok 1000100)
             (force_refresh 1000050
                (state_after (update_data (Inputs.both_ok 1000000)
                                          Inputs.fresh)))) = true.
Proof.
  apply (proj2 (proj2 (force_refresh_fetches 1000050 (Inputs.both_ok 1000100)
                  (state_after (update_data (Inputs.both_ok 1000000)
                                            Inputs.fresh))
                  ltac:(unfold datetime_ok, datetime_max; simpl; lia)
                  ltac:(unfold datetime_ok, datetime_max; simpl; lia)
                  ltac:(simpl; lia)))).
  reflexivity.
Defined.

(** ** The refresh driver *)

Lemma rerun_due_threshold (t_end : datetime) (st : session_state) :
  timedelta_ok (t_end - last_update st) ->
  rerun_due t_end st = (1000000 <=? t_end - last_update st)%Z.
Proof.
  intros R. apply (proj2 (Binary64.total_seconds_thresholds _ R)).
Qed.

(** X5: the rerun test at the end of the script is a test on whole
    microseconds: [st.rerun()] is called exactly when at least 1000000
    microseconds have passed since [last_update].  Right after an execution
    that recorded a row, that is one second after the clock reading of
    [update_data]: if the rest of the script takes less, no rerun is
    requested. *)
Theorem rerun_threshold (t_end : datetime) (w : world) (st : session_state) :
  timedelta_ok (t_end - last_update st) ->
  timedelta_ok (t_end - now w) ->
  rerun_due t_end st = (1000000 <=? t_end - last_update st)%Z /\
  (updated (update_data w st) = true ->
   rerun_due t_end (state_after (update_data w st))
   = (now w + 1000000 <=? t_end)%Z).
Proof.
  intros R R'. split; [apply rerun_due_threshold, R|].
  intros U.
  destruct (update_data_updated w st U) as (p & n & _ & _ & _ & ->).
  rewrite rerun_due_threshold by exact R'. cbn [last_update].
  destruct (Z.leb_spec 1000000 (t_end - now w));
    destruct (Z.leb_spec (now w + 1000000) t_end); lia || reflexivity.
Qed.

Lemma rerun_threshold_witness :
  rerun_due 1300000
    (state_after (update_data (Inputs.both_ok 1000000) Inputs.fresh)) = false.
Proof.
  apply (proj2 (rerun_threshold 1300000 (Inputs.both_ok 1000000) Inputs.fresh
                  ltac:(vm_compute; split; reflexivity)
                  ltac:(vm_compute; split; reflexivity))).
  reflexivity.
Defined.

(** X6: the rerun test of the last lines, taken on the session state that
    an [update_data] which made the downloads and recorded nothing has
    left, and at a clock reading at least the 0.1 s of [time.sleep] after
    that of [update_data], passes: a script that gets to the test after
    such a tick asks for a rerun. *)
Theorem rerun_after_failure
    (t_end : datetime) (w : world) (st : session_state) :
  (- two_minutes <= last_update st <= datetime_max)%Z ->
  datetime_ok (now w) -> datetime_ok t_end ->
  (now w + 100000 <= t_end)%Z ->
  debounced w st = false ->
  updated (update_data w st) = false ->
  rerun_due t_end (state_after (update_data w st)) = true.
Proof.
  intros L N T S G U. rewrite (update_data_not_updated w st U).
  assert (timedelta_ok (now w - last_update st)) as R
      by (apply datetime_difference; unfold datetime_ok, two_minutes in *; lia).
  rewrite (debounced_threshold w st R) in G. apply Z.ltb_ge in G.
  rewrite rerun_due_threshold
    by (apply datetime_difference; unfold datetime_ok, two_minutes in *; lia).
  apply Z.leb_le. lia.
Qed.

Lemma rerun_after_failure_witness :
  rerun_due 1100000
    (state_after (update_data (Inputs.spy_empty 1000000) Inputs.fresh)) = true.
Proof.
  apply (rerun_after_failure 1100000 (Inputs.spy_empty 1000000) Inputs.fresh).
  - unfold datetime_ok, datetime_max, two_minutes; simpl; lia.
  - unfold datetime_ok, datetime_max, two_minutes; simpl; lia.
  - unfold datetime_ok, datetime_max, two_minutes; simpl; lia.
  - simpl; lia.
  - reflexivity.
  - reflexivity.
Defined.

(** X7: a rerun the driver asks for is never wasted on the debounce: if the
    rerun test passed at [t_end], [update_data] in an execution whose clock
    reads [t_end] or later makes the downloads. *)
Theorem rerun_is_not_debounced
    (t_end : datetime) (w : world) (st : session_state) :
  (- two_minutes <= last_update st <= datetime_max)%Z ->
  datetime_ok t_end -> datetime_ok (now w) ->
  (t_end <= now w)%Z ->
  rerun_due t_end st = true ->
  filter is_download (trace (update_data w st))
  = [YfDownload "SPY"; YfDownload "^GSPC"].
Proof.
  intros L T N S D.
  rewrite rerun_due_threshold in D
    by (apply datetime_difference; unfold datetime_ok, two_minutes in *; lia).
  apply Z.leb_le in D.
  apply attempt_trace, due_tick;
    unfold datetime_ok, two_minutes in *; lia.
Qed.

Lemma rerun_is_not_debounced_witness :
  filter is_download (trace (update_data (Inputs.both_ok 1000000) Inputs.fresh))
  = [YfDownload "SPY"; YfDownload "^GSPC"].
Proof.
  apply (rerun_is_not_debounced 1000000 (Inputs.both_ok 1000000) Inputs.fresh).
  - unfold datetime_ok, datetime_max, two_minutes; simpl; lia.
  - unfold datetime_ok, datetime_max, two_minutes; simpl; lia.
  - unfold datetime_ok, datetime_max, two_minutes; simpl; lia.
  - simpl; lia.
  - reflexivity.
Defined.

(** ** Sessions without the button *)

Lemma Sorted_snoc {A : Type} (R : A -> A -> Prop) (init : list A) (r s : A) :
  Sorted R (init ++ [r]) -> R r s -> Sorted R ((init ++ [r]) ++ [s]).
Proof.
  intros S H. induction init as [|a init IH].
  - repeat constructor. exact H.
  - cbn [app] in S |- *. inversion S as [|? ? S' Hd]; subst.
    constructor; [apply IH, S'|].
    destruct init; inversion Hd; subst; constructor; assumption.
Qed.

Lemma Sorted_skipn {A : Type} (R : A -> A -> Prop) (k : nat) :
  forall l, Sorted R l -> Sorted R (skipn k l).
Proof.
  induction k as [|k IH]; intros l S; [exact S|].
  destruct l as [|a l]; [exact S|].
  cbn [skipn]. apply IH. inversion S; assumption.
Qed.

Lemma Sorted_weaken {A : Type} (R R' : A -> A -> Prop) (l : list A) :
  (forall a b, R a b -> R' a b) -> Sorted R l -> Sorted R' l.
Proof.
  intros W S. induction S as [|a l S IH Hd]; constructor; [exact IH|].
  destruct Hd; constructor; auto.
Qed.

(** What holds of every session state reached without the button. *)
Lemma unattended_invariant (st : session_state) :
  unattended st ->
  spaced (data st) /\
  (- two_minutes <= last_update st <= datetime_max)%Z /\
  (data st = [] \/
   exists init r, data st = init ++ [r] /\ timestamp r = last_update st).
Proof.
  intros U. induction U as [t0 T|w st N U (S & L & D)].
  - cbn [initial_state data last_update].
    unfold datetime_ok, two_minutes in *.
    split; [constructor|]. split; [lia|left; reflexivity].
  - destruct (updated (update_data w st)) eqn:Up.
    + destruct (update_data_updated w st Up) as (p & n & G & _ & _ & ->).
      cbn [data last_update]. unfold datetime_ok, two_minutes in *.
      assert (timedelta_ok (now w - last_update st)) as R
          by (apply datetime_difference; unfold two_minutes; lia).
      rewrite (debounced_threshold w st R) in G.
      apply Z.ltb_ge in G.
      split; [|split; [lia|]].
      * unfold appended, spaced. apply Sorted_skipn.
        destruct D as [->|(init & r & Ed & E)].
        -- repeat constructor.
        -- unfold spaced in S. rewrite Ed in S |- *.
           apply Sorted_snoc; [exact S|]. cbn [new_sample timestamp]. lia.
      * right. rewrite appended_fifo.
        exists (skipn (length (data st) + 1 - buffer_capacity) (data st)),
               (new_sample w p n).
        split; reflexivity.
    + rewrite (update_data_not_updated w st Up). auto.
Qed.

(** X8: in a session where the button is never pressed, whatever the clock
    does between executions, consecutive rows of the buffer are at least
    0.9 s apart, and [last_update] is the timestamp of the newest row. *)
Theorem unattended_rows_are_spaced (st : session_state) :
  unattended st ->
  spaced (data st) /\
  match rev (data st) with
  | [] => True
  | newest :: _ => last_update st = timestamp newest
  end.
Proof.
  intros U. destruct (unattended_invariant st U) as (S & _ & D).
  split; [exact S|].
  destruct D as [->|(init & r & -> & E)]; [exact I|].
  rewrite rev_unit. symmetry. exact E.
Qed.

Lemma unattended_rows_are_spaced_witness :
  spaced (data (state_after
                  (update_data (Inputs.both_ok 2000000)
                     (state_after (update_data (Inputs.both_ok 1000000)
                                               (initial_state 1000000)))))).
Proof.
  apply (unattended_rows_are_spaced
           (state_after
              (update_data (Inputs.both_ok 2000000)
                 (state_after (update_data (Inputs.both_ok 1000000)
                                           (initial_state 1000000)))))).
  repeat (apply unattended_update || apply unattended_initial);
    unfold datetime_ok, datetime_max; simpl; lia.
Defined.

Lemma spaced_increasing (rows : list Sample) :
  spaced rows ->
  StronglySorted (fun a b => (timestamp a < timestamp b)%Z) rows.
Proof.
  intros S. apply Sorted_StronglySorted.
  - intros a b c H1 H2. lia.
  - apply (Sorted_weaken _ _ rows) with (2 := S). intros a b H. lia.
Qed.

(** X9: in a session where the button is never pressed the table is the
    buffer read backwards: its rows are the last rows of the buffer, at most
    15, the newest first. *)
Theorem unattended_table_is_reversed_buffer (st : session_state) :
  unattended st ->
  map row_sample (table_data (data st)) = firstn 15 (rev (data st)).
Proof.
  intros U. destruct (unattended_invariant st U) as (S & _ & _).
  rewrite <- (sort_newest_first_rev (data st) (spaced_increasing _ S)).
  change (firstn 15 (sort_newest_first (data st)))
    with (shown_slice (data st)).
  unfold table_data. fold (shown_slice (data st)).
  induction (shown_slice (data st)) as [|s rest IH]; [reflexivity|].
  rewrite table_data_cons. cbn [map with_changes row_sample]. f_equal.
  exact IH.
Qed.

Lemma unattended_table_is_reversed_buffer_witness :
  map row_sample
    (table_data
       (data (state_after
                (update_data (Inputs.both_ok 2000000)
                   (state_after (update_data (Inputs.both_ok 1000000)
                                             (initial_state 1000000)))))))
  = [new_sample (Inputs.both_ok 2000000) 501%float 500%float;
     new_sample (Inputs.both_ok 1000000) 501%float 500%float].
Proof.
  rewrite (unattended_table_is_reversed_buffer
             (state_after
                (update_data (Inputs.both_ok 2000000)
                   (state_after (update_data (Inputs.both_ok 1000000)
                                             (initial_state 1000000)))))).
  - reflexivity.
  - repeat (apply unattended_update || apply unattended_initial);
      unfold datetime_ok, datetime_max; simpl; lia.
Defined.

(** ** The table, for any buffer *)

Lemma insert_newest_first_perm (s : Sample) (rows : list Sample) :
  Permutation (insert_newest_first s rows) (s :: rows).
Proof.
  induction rows as [|r rows IH]; [reflexivity|].
  cbn [insert_newest_first].
  destruct (timestamp r <=? timestamp s)%Z; [reflexivity|].
  rewrite IH. apply perm_swap.
Qed.

Lemma sort_newest_first_perm (rows : list Sample) :
  Permutation (sort_newest_first rows) rows.
Proof.
  induction rows as [|r rows IH]; [reflexivity|].
  unfold sort_newest_first in *. cbn [fold_right].
  rewrite insert_newest_first_perm. constructor. exact IH.
Qed.

Lemma insert_newest_first_sorted (s : Sample) (rows : list Sample) :
  newest_first rows -> newest_first (insert_newest_first s rows).
Proof.
  unfold newest_first. intros S.
  induction S as [|r rows S IH F]; [repeat constructor|].
  cbn [insert_newest_first].
  destruct (Z.leb_spec (timestamp r) (timestamp s)) as [L|L].
  - constructor; [constructor; assumption|].
    constructor; [exact L|].
    rewrite Forall_forall in F |- *. intros x X.
    specialize (F x X). cbn beta in F. lia.
  - constructor; [exact IH|].
    apply (Permutation_Forall
             (Permutation_sym (insert_newest_first_perm s rows))).
    constructor; [lia|exact F].
Qed.

Lemma sort_newest_first_sorted (rows : list Sample) :
  newest_first (sort_newest_first rows).
Proof.
  induction rows as [|r rows IH]; [constructor|].
  unfold sort_newest_first in *. cbn [fold_right].
  apply insert_newest_first_sorted, IH.
Qed.

Lemma table_data_samples (buffer : list Sample) :
  map row_sample (table_data buffer) = shown_slice buffer.
Proof.
  unfold table_data. fold (shown_slice buffer).
  induction (shown_slice buffer) as [|s rest IH]; [reflexivity|].
  rewrite table_data_cons. cbn [map with_changes row_sample]. f_equal.
  exact IH.
Qed.

(** X10: whatever the order of the buffer, the rows of the table are rows
    of the buffer, no row is newer than a row above it, and the rows left
    out are no newer than any row shown: shown and hidden rows together are
    the buffer rearranged, newest first. *)
Theorem table_shows_the_newest (buffer : list Sample) :
  exists hidden,
    Permutation (map row_sample (table_data buffer) ++ hidden) buffer /\
    newest_first (map row_sample (table_data buffer) ++ hidden).
Proof.
  exists (skipn table_rows (sort_newest_first buffer)).
  rewrite table_data_samples. unfold shown_slice.
  rewrite firstn_skipn.
  split; [apply sort_newest_first_perm|apply sort_newest_first_sorted].
Qed.

(** X11: the table has one row per buffer row up to 15 rows, and 15 rows
    from there on. *)
Theorem table_has_at_most_15_rows (buffer : list Sample) :
  length (table_data buffer) = Nat.min 15 (length buffer).
Proof.
  rewrite table_data_length. apply shown_slice_length.
Qed.

(** X12: a cell of the [Change] or [Change %] column that shows no text has
    no colour either: the formatting and the styling skip the same rows. *)
Theorem empty_cells_are_unstyled (r : table_row) :
  (col_change (display r) = "" -> fst (fst (style_df r)) = Unstyled) /\
  (col_change_pct (display r) = "" -> snd (fst (style_df r)) = Unstyled).
Proof.
  unfold display, style_df, colour, if_notnull, dollars.
  cbn [col_change col_change_pct fst snd].
  split.
  - destruct (PyNum.notnull (price_change r)); [discriminate|reflexivity].
  - destruct (PyNum.notnull (price_change_pct r)); [|reflexivity].
    destruct (PyNum.format_f 4 (price_change_pct r)); discriminate.
Qed.

Lemma empty_cells_are_unstyled_witness :
  fst (fst (style_df (with_changes (Inputs.sample_at 0 500%float)
                                   PrimFloat.nan))) = Unstyled.
Proof.
  apply (proj1 (empty_cells_are_unstyled
                  (with_changes (Inputs.sample_at 0 500%float)
                                PrimFloat.nan))).
  reflexivity.
Defined.

(** ** Edge cases of the aggregation *)

(** X15: a download whose last close is NaN is not a failure: the price
    fetch returns it, and [update_data] records a row, the newest of the
    buffer, whose price and difference are NaN. *)
Theorem nan_close_is_recorded
    (w : world) (st : session_state) (older : list float) (x n : float) :
  debounced w st = false ->
  spy_download w = Frame (older ++ [x]) -> isNaN x ->
  nav_of w = Some n ->
  price_of w = Some x /\
  updated (update_data w st) = true /\
  exists kept,
    data (state_after (update_data w st)) = kept ++ [new_sample w x n] /\
    isNaN (spy_price (new_sample w x n)) /\
    isNaN (difference (new_sample w x n)).
Proof.
  intros G D X N.
  assert (price_of w = Some x) as P.
  { unfold price_of, fetch_spy_price. rewrite D.
    destruct (older ++ [x]) as [|c close] eqn:E;
      [destruct older; discriminate|].
    rewrite <- E. cbn [bind emit ret fst snd value]. unfold iloc_last.
    rewrite last_last. reflexivity. }
  split; [exact P|].
  rewrite (update_data_attempt w st G), P, N.
  unfold updated, state_after, value. cbn [fst snd data].
  split; [reflexivity|].
  eexists. split; [apply appended_fifo|].
  cbn [new_sample difference spy_price]. split; [exact X|].
  apply NaN.sub_l, X.
Qed.

Lemma nan_close_is_recorded_witness :
  updated (update_data
             (Inputs.tick 1000000 (Frame [500%float; PrimFloat.nan])
                          (Frame [5000%float]))
             Inputs.fresh) = true.
Proof.
  apply (nan_close_is_recorded
           (Inputs.tick 1000000 (Frame [500%float; PrimFloat.nan])
                        (Frame [5000%float]))
           Inputs.fresh [500%float] PrimFloat.nan 500%float);
    reflexivity.
Defined.

(** X16: the buffer of a session never gets shorter: an execution of
    [update_data] leaves its length as it is or adds one to it. *)
Theorem buffer_never_shrinks (w : world) (st : session_state) :
  reachable st ->
  length (data st) <= length (data (state_after (update_data w st)))
  <= length (data st) + 1.
Proof.
  intros R. pose proof (reachable_bounded st R) as B.
  destruct (updated (update_data w st)) eqn:U.
  - destruct (update_data_updated w st U) as (p & n & _ & _ & _ & ->).
    cbn [data]. rewrite appended_length. lia.
  - rewrite (update_data_not_updated w st U). lia.
Qed.

Lemma buffer_never_shrinks_witness :
  length (data (initial_state 0))
  <= length (data (state_after (update_data (Inputs.both_ok 0)
                                            (initial_state 0))))
  <= length (data (initial_state 0)) + 1.
Proof.
  apply (buffer_never_shrinks (Inputs.both_ok 0) (initial_state 0)).
  apply reach_initial.
Defined.
